(** * bench/bench.py: best-of-three JSON parse timings and their geometric mean

    A shallow embedding of the benchmark script.  The script times
    [json.load] on four fixed files with [timeit.repeat], keeps the
    smallest of three samples per file, prints it, and finally prints the
    geometric mean [reduce(lambda a, b: a*b, min_times)**(1/len(min_times))].

    Python floats are IEEE 754 binary64 values; they are modelled by the
    Standard Library's [spec_float] at precision 53 and maximal exponent
    1024, so that rounding, overflow and underflow of the script's
    arithmetic are the ones the interpreter performs. *)

From Stdlib Require Import ZArith List String Ascii Bool Lia Permutation.
From Stdlib Require Import SpecFloat DecimalString DecimalPos DecimalN.
Import ListNotations.

Local Open Scope Z_scope.

(** ** Binary64 arithmetic *)

Module F64.

Definition prec : Z := 53.
Definition emax : Z := 1024.

Definition float : Type := spec_float.

Definition mul : float -> float -> float := SFmul prec emax.
Definition div : float -> float -> float := SFdiv prec emax.
Definition ltb : float -> float -> bool := SFltb.
Definition leb : float -> float -> bool := SFleb.
Definition eqb : float -> float -> bool := SFeqb.

(** [float(z)] for an integer [z]; exact when [|z| < 2^53]. *)
Definition of_Z (z : Z) : float := binary_normalize prec emax z 0 false.

Definition zero : float := S754_zero false.
Definition one : float := Eval vm_compute in of_Z 1.
Definition quarter : float := Eval vm_compute in div one (of_Z 4).
Definition infinity : float := S754_infinity false.
Definition nan : float := S754_nan.

(** [2.0 ** k], rounded as [ldexp(1.0, k)] rounds. *)
Definition two_pow (k : Z) : float := SFldexp prec emax one k.

Definition valid (x : float) : bool := valid_binary prec emax x.

Definition is_nan (x : float) : bool :=
  match x with S754_nan => true | _ => false end.

Definition is_infinity (x : float) : bool :=
  match x with S754_infinity _ => true | _ => false end.

(** A finite float that is an integer ([x == floor(x)]). *)
Definition is_integer (x : float) : bool :=
  match x with
  | S754_zero _ => true
  | S754_finite _ m e =>
      if 0 <=? e then true else Z.pos m mod 2 ^ (- e) =? 0
  | _ => false
  end.

(** CPython's [DOUBLE_IS_ODD_INTEGER]: [fmod(fabs(x), 2.0) == 1.0]. *)
Definition is_odd_integer (x : float) : bool :=
  match x with
  | S754_finite _ m e =>
      if 0 <? e then false
      else (Z.pos m mod 2 ^ (- e) =? 0) && Z.odd (Z.pos m / 2 ^ (- e))
  | _ => false
  end.

(** Strictly positive, not a NaN: [x > 0.0]. *)
Definition is_positive (x : float) : bool := ltb zero x.

(** What a difference of two readings of a monotonic clock can be: [+0.0]
    or a finite positive binary64 number. *)
Definition duration (x : float) : bool :=
  match x with
  | S754_zero false => true
  | S754_finite false m e => bounded prec emax m e
  | _ => false
  end.


Definition finite_nonneg (x : float) : bool :=
  match x with
  | S754_zero false | S754_finite false _ _ => true
  | _ => false
  end.

(** [x] is exactly the fourth power of [r], both finite and positive:
    [mx * 2^ex = (mr * 2^er)^4], compared at the smaller exponent. *)
Definition is_fourth_power (x r : float) : bool :=
  match x, r with
  | S754_finite false mx ex, S754_finite false mr er =>
      let e0 := Z.min ex (4 * er) in
      Z.pos mx * 2 ^ (ex - e0) =? Z.pos mr ^ 4 * 2 ^ (4 * er - e0)
  | _, _ => false
  end.

(** Non-negative numbers: [+0.0], the positive finite floats and [+inf]. *)
Inductive nonneg : float -> Prop :=
| nonneg_zero : nonneg (S754_zero false)
| nonneg_finite m e : nonneg (S754_finite false m e)
| nonneg_infinity : nonneg (S754_infinity false).

End F64.

(** ** The Python operations the script uses *)

Module Py.


(** The exceptions that can end a run. *)
Inductive exn : Type :=
| FileNotFoundError (path : string)
| PermissionError (path : string)
| JSONDecodeError (path : string)
| TypeError (msg : string)
| ZeroDivisionError (msg : string)
| OverflowError (msg : string)
| ValueError (msg : string).

(** An expression either has a value or raises. *)
Inductive outcome (A : Type) : Type :=
| Ok (a : A)
| Raise (e : exn).

Arguments Ok {A} a.
Arguments Raise {A} e.

Definition obind {A B : Type} (o : outcome A) (k : A -> outcome B) : outcome B :=
  match o with
  | Ok a => k a
  | Raise e => Raise e
  end.

Declare Scope py_scope.
Delimit Scope py_scope with py.
Notation "'let?' x ':=' o 'in' k" := (obind o (fun x => k))
  (at level 10, x name, o at level 100, k at level 200) : py_scope.
Local Open Scope py_scope.

(** The result of [**] on floats is a float, or a complex number when a
    negative base meets a fractional exponent. *)
Inductive value : Type :=
| VFloat (x : F64.float)
| VComplex (re im : F64.float).

(** The C library behind the interpreter.  [pow] is the platform's [pow]
    on a finite positive base other than [1.0] and a finite nonzero
    exponent, followed by the interpreter's [errno] test (a range or domain
    error becomes [OverflowError] or [ValueError]); [cpow] is the complex
    power the interpreter falls back to. *)
Record libm : Type := {
  pow : F64.float -> F64.float -> outcome F64.float;
  cpow : F64.float -> F64.float -> outcome (F64.float * F64.float)
}.

(** What every C library grants: [pow(x, 1.0)] is [x], with no error. *)
Definition pow_exact_at_one (L : libm) : Prop :=
  forall x, F64.is_positive x = true -> pow L x F64.one = Ok x.

(** A platform whose [pow] returns the exact fourth root whenever its
    argument is exactly the fourth power of a binary64 number, as a [pow]
    accurate to under one unit in the last place does. *)
Definition pow_exact_roots (L : libm) : Prop :=
  forall x r, F64.valid r = true -> F64.is_fourth_power x r = true ->
              pow L x F64.quarter = Ok r.


(** A platform whose [pow] returns at exponent [0.25] for every positive
    base, as fourth roots of positive numbers do. *)
Definition pow_quarter_total (L : libm) : Prop :=
  forall x, F64.is_positive x = true -> exists r, pow L x F64.quarter = Ok r.

(** [min(a, b)]: the first argument unless the second is smaller. *)
Definition min (a b : F64.float) : F64.float := if F64.ltb b a then b else a.

(** [functools.reduce(f, l)] with no initial value. *)
Definition reduce {A : Type} (f : A -> A -> A) (l : list A) : outcome A :=
  match l with
  | [] => Raise (TypeError "reduce() of empty iterable with no initial value")
  | x :: xs => Ok (fold_left f xs x)
  end.

(** [a / b] on ints: the quotient rounded to binary64 (both operands are
    below [2^53] in the script, so converting them first is exact). *)
Definition int_truediv (a b : Z) : outcome F64.float :=
  if b =? 0 then Raise (ZeroDivisionError "division by zero")
  else Ok (F64.div (F64.of_Z a) (F64.of_Z b)).

(** [iv ** iw] on floats, case by case as the interpreter's [float_pow]
    sorts them out before it calls the platform's [pow]. *)
Definition float_pow (L : libm) (iv iw : F64.float) : outcome value :=
  if F64.eqb iw F64.zero then Ok (VFloat F64.one)
  else if F64.is_nan iv then Ok (VFloat iv)
  else if F64.is_nan iw then Ok (VFloat (if F64.eqb iv F64.one then F64.one else iw))
  else if F64.is_infinity iw then
    let a := SFabs iv in
    if F64.eqb a F64.one then Ok (VFloat F64.one)
    else if Bool.eqb (F64.ltb F64.zero iw) (F64.ltb F64.one a) then Ok (VFloat (SFabs iw))
    else Ok (VFloat F64.zero)
  else if F64.is_infinity iv then
    let odd := F64.is_odd_integer iw in
    if F64.ltb F64.zero iw then Ok (VFloat (if odd then iv else SFabs iv))
    else Ok (VFloat (if odd then (if F64.ltb iv F64.zero then SFopp F64.zero else F64.zero) else F64.zero))
  else if F64.eqb iv F64.zero then
    if F64.ltb iw F64.zero
    then Raise (ZeroDivisionError "0.0 cannot be raised to a negative power")
    else Ok (VFloat (if F64.is_odd_integer iw then iv else F64.zero))
  else if F64.ltb iv F64.zero && negb (F64.is_integer iw) then
    let? c := cpow L iv iw in Ok (VComplex (fst c) (snd c))
  else
    let negate := F64.ltb iv F64.zero && F64.is_odd_integer iw in
    let a := if F64.ltb iv F64.zero then SFopp iv else iv in
    if F64.eqb a F64.one then Ok (VFloat (if negate then SFopp F64.one else F64.one))
    else let? ix := pow L a iw in Ok (VFloat (if negate then SFopp ix else ix)).

(** *** [format(x, "0.06f")] *)

Definition digit (d : Z) : ascii := ascii_of_nat (48 + Z.to_nat (d mod 10)).

(** The decimal numeral of a natural number. *)
Definition decimal (n : Z) : string :=
  NilEmpty.string_of_uint (N.to_uint (Z.to_N n)).

(** Six digits, zero-padded on the left. *)
Definition frac6 (k : Z) : string :=
  String (digit (k / 100000)) (String (digit (k / 10000)) (String (digit (k / 1000))
    (String (digit (k / 100)) (String (digit (k / 10)) (String (digit k) EmptyString))))).

(** [num / den] rounded to the nearest integer, ties to even. *)
Definition round_half_even (num den : Z) : Z :=
  let q := num / den in
  match (2 * (num mod den) ?= den) with
  | Lt => q
  | Gt => q + 1
  | Eq => if Z.even q then q else q + 1
  end.

(** [m * 2^e * 10^6] rounded to an integer: the digits of a finite float
    to six decimal places, correctly rounded from its exact value. *)
Definition micros (m : positive) (e : Z) : Z :=
  if 0 <=? e then Z.pos m * 2 ^ e * 1000000
  else round_half_even (Z.pos m * 1000000) (2 ^ (- e)).

Definition sign_prefix (s : bool) : string := if s then "-" else "".

Definition float_format_f6 (x : F64.float) : string :=
  match x with
  | S754_nan => "nan"
  | S754_infinity s => sign_prefix s ++ "inf"
  | S754_zero s => sign_prefix s ++ "0.000000"
  | S754_finite s m e =>
      let n := micros m e in
      sign_prefix s ++ decimal (n / 1000000) ++ "." ++ frac6 (n mod 1000000)
  end.

(** The replacement field [{x:0.06f}]: a leading [0] asks for zero padding
    (to no width), precision [06] is six; complex numbers refuse zero
    padding. *)
Definition format_0_06f (v : value) : outcome string :=
  match v with
  | VFloat x => Ok (float_format_f6 x)
  | VComplex _ _ =>
      Raise (ValueError "Zero padding is not allowed in complex format specifier")
  end.

(** *** Statements: standard output and the files opened so far *)

Record state : Type := {
  stdout : list string;
  opened : list string
}.

Definition M (A : Type) : Type := state -> outcome A * state.

Definition ret {A : Type} (a : A) : M A := fun st => (Ok a, st).

Definition bind {A B : Type} (c : M A) (k : A -> M B) : M B :=
  fun st =>
    match c st with
    | (Ok a, st') => k a st'
    | (Raise e, st') => (Raise e, st')
    end.

Definition lift {A : Type} (o : outcome A) : M A := fun st => (o, st).

Definition print (line : string) : M unit :=
  fun st => (Ok tt, {| stdout := (stdout st ++ [line])%list; opened := opened st |}).

Notation "x <- c ;; k" := (bind c (fun x => k))
  (at level 61, c at next level, right associativity) : py_scope.
Notation "c ;; k" := (bind c (fun _ => k))
  (at level 61, right associativity) : py_scope.

(** The exit status of the interpreter: 1 after an uncaught exception. *)
Definition exit_status {A : Type} (o : outcome A) : Z :=
  match o with
  | Ok _ => 0
  | Raise _ => 1
  end.

End Py.

(** ** [timeit.repeat] *)

Module Timeit.

Import Py.
Local Open Scope py_scope.

(** The machine the benchmark runs on.  [trial k path] is what the
    statement [with open(path) as f: json.load(f)] does when it is the
    [k]-th statement timed in the run: it raises, or it completes and the
    clock shows the given elapsed time. *)
Record world : Type := {
  trial : nat -> string -> outcome F64.float
}.

(** The clock is monotonic: elapsed times are finite and not negative. *)
Definition clock_sane (w : world) : Prop :=
  forall k path x, trial w k path = Ok x -> F64.duration x = true.

(** The file at [path] does not exist or cannot be read, at any time. *)
Definition unreadable (w : world) (path : string) : Prop :=
  forall k, trial w k path = Raise (FileNotFoundError path) \/
            trial w k path = Raise (PermissionError path).

(** [Timer.timeit(number=1)] on that statement. *)
Definition timeit (w : world) (path : string) : M F64.float :=
  fun st =>
    (trial w (List.length (opened st)) path,
     {| stdout := stdout st; opened := (opened st ++ [path])%list |}).

(** [repeat(stmt, setup, repeat=n, number=1)]: the list of [n] timings. *)
Fixpoint repeat (w : world) (path : string) (n : nat) : M (list F64.float) :=
  match n with
  | O => ret []
  | S n' =>
      t <- timeit w path ;;
      r <- repeat w path n' ;;
      ret (t :: r)
  end.

End Timeit.

(** ** The script *)

Module Bench.

Import Py Timeit.
Local Open Scope py_scope.
Local Open Scope string_scope.

Definition sources : list string :=
  ["canada"; "citm_catalog"; "citylots"; "twitter"].

(** The file the timed statement opens for [source]. *)
Definition json_path (source : string) : string :=
  "../data/" ++ source ++ ".json".

(** [f"{source} {t:0.06f} seconds"] *)
Definition seconds_line (source : string) (t : F64.float) : string :=
  source ++ " " ++ float_format_f6 t ++ " seconds".

(** One pass of the loop body: three timings, their minimum, one line. *)
Definition measure (w : world) (source : string) : M F64.float :=
  times <- Timeit.repeat w (json_path source) 3 ;;
  t <- lift (reduce Py.min times) ;;
  print (seconds_line source t) ;;
  ret t.

(** The [for] loop, with [min_times] as it grows. *)
Fixpoint measure_all (w : world) (srcs : list string) (min_times : list F64.float)
  : M (list F64.float) :=
  match srcs with
  | [] => ret min_times
  | source :: rest =>
      t <- measure w source ;;
      measure_all w rest (min_times ++ [t])%list
  end.

(** [reduce(lambda a, b: a*b, min_times)**(1/len(min_times))] *)
Definition geo_mean (L : libm) (min_times : list F64.float) : outcome value :=
  let? p := reduce F64.mul min_times in
  let? e := int_truediv 1 (Z.of_nat (List.length min_times)) in
  float_pow L p e.

(** [f"Total (G.M): {geo_mean:0.06f}"] *)
Definition total_line (g : value) : outcome string :=
  let? s := format_0_06f g in Ok ("Total (G.M): " ++ s).

(** The last two lines of the script. *)
Definition report (L : libm) (min_times : list F64.float) : M unit :=
  g <- lift (geo_mean L min_times) ;;
  line <- lift (total_line g) ;;
  print line.

Definition main (L : libm) (w : world) : M unit :=
  min_times <- measure_all w sources [] ;;
  report L min_times.

(** Nothing printed, nothing opened. *)
Definition initial : state := {| stdout := []; opened := [] |}.

Definition run (L : libm) (w : world) : outcome unit * state :=
  main L w initial.

(** What one pass computes when the clock stands at [k]: the smallest of
    the timings of statements [k], [k + 1] and [k + 2]. *)
Definition min_time (w : world) (k : nat) (source : string) : outcome F64.float :=
  let? s0 := trial w k (json_path source) in
  let? s1 := trial w (1 + k) (json_path source) in
  let? s2 := trial w (2 + k) (json_path source) in
  Ok (Py.min (Py.min s0 s1) s2).

(** What the loop collects when it starts with the clock at [k]. *)
Fixpoint min_times_from (w : world) (k : nat) (srcs : list string)
  : outcome (list F64.float) :=
  match srcs with
  | [] => Ok []
  | source :: rest =>
      let? t := min_time w k source in
      let? ts := min_times_from w (3 + k) rest in
      Ok (t :: ts)
  end.

(** The lines the loop prints for [srcs] and their minimum times. *)
Definition seconds_lines (srcs : list string) (ts : list F64.float) : list string :=
  map (fun st => seconds_line (fst st) (snd st)) (combine srcs ts).

(** The files the loop opens, in order: each source's file three times. *)
Definition schedule (srcs : list string) : list string :=
  flat_map (fun source => List.repeat (json_path source) 3) srcs.

End Bench.

(** ** The words of the specification *)

Module Spec.

Import Py.
Local Open Scope py_scope.
Local Open Scope string_scope.

(** "The product of all values": left to right from [1.0], as [math.prod]
    multiplies. *)
Definition product (values : list F64.float) : F64.float :=
  fold_left F64.mul values F64.one.

(** "Computes the product of all values, then raises that product to the
    power [1/len(minimumTimes)]." *)
Definition aggregate (L : libm) (minimumTimes : list F64.float) : outcome value :=
  let? e := int_truediv 1 (Z.of_nat (List.length minimumTimes)) in
  float_pow L (product minimumTimes) e.

(** The running product of four times is infinite at the moment it is
    multiplied by a zero time ([inf * 0.0]). *)
Definition overflow_meets_zero (a b c d : F64.float) : bool :=
  (F64.is_infinity (F64.mul a b) && F64.eqb c F64.zero)
  || (F64.is_infinity (F64.mul (F64.mul a b) c) && F64.eqb d F64.zero).

(** "A complex or undefined result": a complex number or a NaN. *)
Definition complex_or_undefined (r : outcome value) : Prop :=
  match r with
  | Ok (VComplex _ _) => True
  | Ok (VFloat x) => F64.is_nan x = true
  | Raise _ => False
  end.

Definition is_digit (c : ascii) : bool :=
  (48 <=? nat_of_ascii c)%nat && (nat_of_ascii c <=? 57)%nat.

Fixpoint all_digits (s : string) : bool :=
  match s with
  | EmptyString => true
  | String c rest => is_digit c && all_digits rest
  end.


(** Reading a printed time back: the digits of the numeral, the point
    left out, as one number.  With six digits after the point this is the
    time in microseconds. *)
Definition digit_value (c : ascii) : Z := Z.of_nat (nat_of_ascii c) - 48.

Fixpoint digits_value (acc : Z) (s : string) : Z :=
  match s with
  | EmptyString => acc
  | String c rest => digits_value (10 * acc + digit_value c) rest
  end.

Fixpoint remove_point (s : string) : string :=
  match s with
  | EmptyString => EmptyString
  | String c rest =>
      if Ascii.eqb c "."%char then remove_point rest
      else String c (remove_point rest)
  end.

Definition read_micros (s : string) : Z := digits_value 0 (remove_point s).

(** A line "starts with" a label. *)
Definition starts_with (label line : string) : bool := String.prefix label line.

End Spec.

(** ** A platform and machines to run the script on *)

Module Sample.

Import Py Timeit.

Definition sqrt : F64.float -> F64.float := SFsqrt F64.prec F64.emax.

Definition half : F64.float := Eval vm_compute in F64.two_pow (-1).

(** The fourth root of a finite positive float, correctly rounded: the
    integer root of the scaled mantissa and on which side of the midpoint
    the rest falls, rounded as the square root is. *)
Definition root4_core (m : positive) (e : Z) : Z * Z * location :=
  let d := Z.pos (digits2_pos m) in
  let e' := Z.min (fexp F64.prec F64.emax ((d + e + 3) / 4)) (e / 4) in
  let m' := Z.pos m * 2 ^ (e - 4 * e') in
  let q := Z.sqrt (Z.sqrt m') in
  let l := if q ^ 4 =? m' then loc_Exact
           else loc_Inexact (if 16 * m' <? (2 * q + 1) ^ 4 then Lt else Gt) in
  (q, e', l).

Definition root4 (x : F64.float) : F64.float :=
  match x with
  | S754_finite false m e =>
      let '(q, e', l) := root4_core m e in
      binary_round_aux F64.prec F64.emax false q e' l
  | _ => x
  end.

(** The float whose fourth power [x] is, if there is one: its exponent is
    fixed by the magnitude of [x], its mantissa is the integer fourth root. *)
Definition exact_root4 (x : F64.float) : F64.float :=
  match x with
  | S754_finite false mx ex =>
      let er := fexp F64.prec F64.emax ((Z.pos (digits2_pos mx) + ex + 3) / 4) in
      let n := if 4 * er <=? ex then Z.pos mx * 2 ^ (ex - 4 * er)
               else Z.pos mx / 2 ^ (4 * er - ex) in
      match Z.sqrt (Z.sqrt n) with
      | Z.pos mr => S754_finite false mr er
      | _ => x
      end
  | _ => x
  end.

(** The fourth root of the sample platform: the exact one when there is
    one, the correctly rounded one otherwise.  The fourth root of a double
    is a finite double; for a mantissa and exponent that are no double, where
    the rounding would leave the finite floats, the argument is returned. *)
Definition pow_quarter (x : F64.float) : F64.float :=
  if F64.valid (exact_root4 x) && F64.is_fourth_power x (exact_root4 x)
  then exact_root4 x
  else if F64.finite_nonneg (root4 x) then root4 x
  else x.

(** [cos(pi/4)] and [sin(pi/4)] as the C library returns them. *)
Definition cos_quarter_pi : F64.float := S754_finite false 6369051672525773 (-53).
Definition sin_quarter_pi : F64.float := S754_finite false 6369051672525772 (-53).

(** A small platform.  Its [pow] is exact at exponent [1.0], the square
    root at [0.5] and the fourth root at [0.25] (exact when there is an exact
    one, correctly rounded otherwise); its complex power knows the exponent
    [0.25]: modulus [|x| ** 0.25], argument [pi/4] for a negative [x].  Other
    exponents are outside its table. *)
Definition libm : Py.libm := {|
  pow := fun x y =>
    if F64.eqb y F64.one then Ok x
    else if F64.eqb y half then Ok (sqrt x)
    else if F64.eqb y F64.quarter then Ok (pow_quarter x)
    else Raise (ValueError "math domain error");
  cpow := fun x y =>
    if F64.eqb y F64.quarter
    then Ok (F64.mul (pow_quarter (SFabs x)) cos_quarter_pi,
             F64.mul (pow_quarter (SFabs x)) sin_quarter_pi)
    else Raise (OverflowError "complex exponentiation")
|}.

(** Twelve elapsed times: [2/16], [3/16], ..., [13/16] of a second. *)
Definition timings : list F64.float :=
  Eval vm_compute in
    map (fun i => F64.div (F64.of_Z (i + 2)) (F64.of_Z 16))
        [0; 1; 2; 3; 4; 5; 6; 7; 8; 9; 10; 11].

(** The [k]-th timed statement takes the [k]-th of them (one second past
    the twelfth). *)
Definition elapsed (k : nat) : F64.float := nth k timings F64.one.

(** Every file is there and parses. *)
Definition world : Timeit.world := {|
  trial := fun k _ => Ok (elapsed k)
|}.

(** The same machine after [missing] was deleted. *)
Definition world_without (missing : string) : Timeit.world := {|
  trial := fun k path =>
    if String.eqb path missing then Raise (FileNotFoundError path)
    else Ok (elapsed k)
|}.



(** Where the run on [world] ends. *)
Definition final : state := Eval vm_compute in snd (Bench.run libm world).

(** [2.0 ** 600], [2.0 ** -600] and [2.0 ** -300]. *)
Definition huge : F64.float := Eval vm_compute in F64.two_pow 600.
Definition tiny : F64.float := Eval vm_compute in F64.two_pow (-600).
Definition small : F64.float := Eval vm_compute in F64.two_pow (-300).

(** An ordinary time, [1.702961595143541] seconds ([0x1.b3f54a857c49dp+0]),
    and the float just below it. *)
Definition ordinary : F64.float := S754_finite false 7669457205314717 (-52).
Definition below_ordinary : F64.float := S754_finite false 7669457205314716 (-52).

End Sample.

(** ** Facts about binary64 comparison and multiplication *)

Module F64Facts.

Lemma compare_cont_Eq (p q : positive) : Pos.compare_cont Eq p q = (p ?= q)%positive.
Proof. reflexivity. Qed.

Lemma compare_antisym (x y : F64.float) :
  SFcompare x y = option_map CompOpp (SFcompare y x).
Proof.
  destruct x as [sx|sx| |sx mx ex], y as [sy|sy| |sy my ey];
    try destruct sx; try destruct sy; simpl; try reflexivity;
    rewrite (Z.compare_antisym ey ex), !compare_cont_Eq, (Pos.compare_antisym my mx);
    destruct (ey ?= ex); simpl; try reflexivity;
    destruct (my ?= mx)%positive; reflexivity.
Qed.

Lemma compare_refl (x : F64.float) :
  F64.is_nan x = false -> SFcompare x x = Some Eq.
Proof.
  destruct x as [s|s| |s m e]; simpl; try discriminate; intros _.
  - reflexivity.
  - destruct s; reflexivity.
  - rewrite Z.compare_refl, compare_cont_Eq, Pos.compare_refl.
    destruct s; reflexivity.
Qed.

Lemma leb_refl (x : F64.float) : F64.is_nan x = false -> F64.leb x x = true.
Proof.
  intros H. unfold F64.leb, SFleb. now rewrite compare_refl.
Qed.

Lemma ltb_leb (x y : F64.float) : F64.ltb x y = true -> F64.leb x y = true.
Proof.
  unfold F64.ltb, F64.leb, SFltb, SFleb.
  destruct (SFcompare x y) as [[ | | ]|]; congruence.
Qed.

(** Among numbers, [not (y < x)] is [x <= y]. *)
Lemma not_ltb_leb (x y : F64.float) :
  F64.is_nan x = false -> F64.is_nan y = false ->
  F64.ltb y x = false -> F64.leb x y = true.
Proof.
  unfold F64.ltb, F64.leb, SFltb, SFleb. intros Hx Hy.
  rewrite (compare_antisym x y).
  destruct (SFcompare y x) as [[ | | ]|] eqn:E; simpl; try congruence.
  destruct x, y; simpl in *; try discriminate;
    repeat match goal with s : bool |- _ => destruct s end; discriminate.
Qed.

Ltac order_cases :=
  repeat match goal with
  | |- context [(?a ?= ?b)%Z] => destruct (Z.compare_spec a b)
  | H : context [(?a ?= ?b)%Z] |- _ => destruct (Z.compare_spec a b)
  | |- context [Pos.compare_cont Eq ?a ?b] =>
      change (Pos.compare_cont Eq a b) with (a ?= b)%positive in *;
      destruct (Pos.compare_spec a b)
  | H : context [Pos.compare_cont Eq ?a ?b] |- _ =>
      change (Pos.compare_cont Eq a b) with (a ?= b)%positive in *;
      destruct (Pos.compare_spec a b)
  end; subst; try reflexivity; try discriminate; try lia.

Lemma leb_trans (x y z : F64.float) :
  F64.leb x y = true -> F64.leb y z = true -> F64.leb x z = true.
Proof.
  unfold F64.leb, SFleb.
  destruct x as [sx|sx| |sx mx ex], y as [sy|sy| |sy my ey], z as [sz|sz| |sz mz ez];
    try destruct sx; try destruct sy; try destruct sz; simpl;
    try reflexivity; try discriminate;
    intros H1 H2; order_cases.
Qed.

Lemma mul_comm (x y : F64.float) : F64.mul x y = F64.mul y x.
Proof.
  destruct x as [sx|sx| |sx mx ex], y as [sy|sy| |sy my ey];
    unfold F64.mul, SFmul; try reflexivity;
    rewrite (xorb_comm sx sy); try reflexivity.
  now rewrite (Pos.mul_comm mx my), (Z.add_comm ex ey).
Qed.

#[local] Hint Constructors F64.nonneg : core.

Lemma shr_1_nonneg (mrs : shr_record) : 0 <= shr_m mrs -> 0 <= shr_m (shr_1 mrs).
Proof. destruct mrs as [[|[p|p|]|p] r s]; simpl; lia. Qed.

Lemma iter_shr_1_nonneg (p : positive) :
  forall mrs, 0 <= shr_m mrs -> 0 <= shr_m (iter_pos shr_1 p mrs).
Proof.
  induction p as [p IH|p IH|]; simpl; intros mrs H; auto using shr_1_nonneg.
Qed.

Lemma shr_fexp_nonneg (m e : Z) (l : location) :
  0 <= m -> 0 <= shr_m (fst (shr_fexp F64.prec F64.emax m e l)).
Proof.
  intros H. unfold shr_fexp, shr.
  assert (H0 : 0 <= shr_m (shr_record_of_loc m l)) by (now destruct l as [|[ | | ]]).
  destruct (fexp _ _ _ - e); simpl; auto using iter_shr_1_nonneg.
Qed.

Lemma round_nearest_even_nonneg (m : Z) (l : location) :
  0 <= m -> 0 <= round_nearest_even m l.
Proof.
  intros H. destruct l as [|[ | | ]]; simpl; try lia. destruct (Z.even m); lia.
Qed.

(** Rounding a magnitude gives a number, never a NaN. *)
Lemma binary_round_aux_nonneg (m e : Z) (l : location) :
  0 <= m -> F64.nonneg (binary_round_aux F64.prec F64.emax false m e l).
Proof.
  intros H. unfold binary_round_aux.
  pose proof (shr_fexp_nonneg m e l H) as H1.
  destruct (shr_fexp _ _ m e l) as [mrs e']. simpl in H1.
  pose proof (shr_fexp_nonneg _ e' loc_Exact
                (round_nearest_even_nonneg _ (loc_of_shr_record mrs) H1)) as H2.
  destruct (shr_fexp _ _ _ e' loc_Exact) as [mrs' e'']. simpl in H2.
  destruct (shr_m mrs'); [|destruct (e'' <=? _)|]; auto. lia.
Qed.

Lemma duration_nonneg (x : F64.float) : F64.duration x = true -> F64.nonneg x.
Proof. destruct x as [[|]|[|]| |[|] m e]; simpl; auto; discriminate. Qed.

Lemma duration_valid (x : F64.float) : F64.duration x = true -> F64.valid x = true.
Proof. destruct x as [[|]|[|]| |[|] m e]; simpl; auto; discriminate. Qed.

Lemma duration_not_nan (x : F64.float) : F64.duration x = true -> F64.is_nan x = false.
Proof. destruct x as [[|]|[|]| |[|] m e]; simpl; auto; discriminate. Qed.

(** A non-negative number times an elapsed time is a non-negative number,
    unless it is [inf * 0.0]. *)
Lemma mul_nonneg (x y : F64.float) :
  F64.nonneg x -> F64.duration y = true ->
  F64.nonneg (F64.mul x y) \/ (x = F64.infinity /\ y = F64.zero /\ F64.mul x y = F64.nan).
Proof.
  intros Hx Hy. apply duration_nonneg in Hy as Hn.
  destruct Hx, Hn; simpl in *; try discriminate; auto.
  left. apply binary_round_aux_nonneg. lia.
Qed.

Lemma digits_shift52 (m : positive) :
  Z.pos (digits2_pos (4503599627370496 * m)) = Z.pos (digits2_pos m) + 52.
Proof. cbn. lia. Qed.

Lemma mul_one_l (x : F64.float) : F64.valid x = true -> F64.mul F64.one x = x.
Proof.
  destruct x as [s|s| |s m e]; try reflexivity.
  intros Hv. unfold F64.valid, valid_binary, bounded, canonical_mantissa in Hv.
  apply andb_prop in Hv as [Hc He]. apply Z.eqb_eq in Hc.
  unfold F64.mul, F64.one, SFmul. cbn [xorb].
  unfold binary_round_aux, shr_fexp, Zdigits2.
  rewrite digits_shift52.
  replace (Z.pos (digits2_pos m) + 52 + (-52 + e)) with (Z.pos (digits2_pos m) + e) by lia.
  rewrite Hc.
  replace (e - (-52 + e)) with 52 by lia.
  cbn -[fexp digits2_pos Z.leb Z.sub Z.add].
  replace (-52 + e + 52) with e by lia.
  rewrite Hc, Z.sub_diag. cbn -[Z.leb Z.sub].
  now rewrite He.
Qed.

End F64Facts.

(** ** Exact fourth roots *)

Module RootFacts.

Lemma digits2_pos_log2 (p : positive) :
  Z.pos (digits2_pos p) = Z.log2 (Z.pos p) + 1.
Proof.
  assert (H : forall q, digits2_pos q = Pos.size q) by (induction q; simpl; congruence).
  rewrite H. destruct p; simpl; lia.
Qed.

(** The binary logarithm of a fourth power. *)
Lemma log2_fourth_power (a : Z) :
  0 < a -> 4 * Z.log2 a <= Z.log2 (a ^ 4) <= 4 * Z.log2 a + 3.
Proof.
  intros Ha. pose proof (Z.log2_spec a Ha) as [Hl Hu].
  pose proof (Z.log2_nonneg a) as Hn.
  assert (H4 : 0 < a ^ 4) by (apply Z.pow_pos_nonneg; lia).
  split.
  - apply Z.log2_le_pow2; [exact H4|].
    replace (4 * Z.log2 a) with (Z.log2 a * 4) by lia.
    rewrite Z.pow_mul_r by lia. apply Z.pow_le_mono_l. lia.
  - assert (Z.log2 (a ^ 4) < 4 * Z.log2 a + 4); [|lia].
    apply Z.log2_lt_pow2; [exact H4|].
    replace (4 * Z.log2 a + 4) with (Z.succ (Z.log2 a) * 4) by lia.
    rewrite Z.pow_mul_r by lia. apply Z.pow_lt_mono_l; lia.
Qed.

Lemma sqrt_sqrt_fourth_power (a : Z) : 0 <= a -> Z.sqrt (Z.sqrt (a ^ 4)) = a.
Proof.
  intros Ha. replace (a ^ 4) with ((a * a) * (a * a)) by ring.
  rewrite Z.sqrt_square by nia. apply Z.sqrt_square. exact Ha.
Qed.

(** A canonical float whose fourth power [x] is, is the one [exact_root4]
    computes: there is at most one. *)
Lemma exact_root4_unique (x r : F64.float) :
  F64.valid r = true -> F64.is_fourth_power x r = true -> Sample.exact_root4 x = r.
Proof.
  destruct x as [sx|sx| |[|] mx ex]; try discriminate.
  destruct r as [sr|sr| |[|] mr er]; try discriminate.
  unfold F64.valid, valid_binary, bounded, canonical_mantissa.
  intros Hv Hp. apply andb_prop in Hv as [Hc _]. apply Z.eqb_eq in Hc.
  cbn [F64.is_fourth_power] in Hp. apply Z.eqb_eq in Hp.
  assert (Hmag : Z.log2 (Z.pos mx) + ex = Z.log2 (Z.pos mr ^ 4) + 4 * er).
  { assert (H4 : 0 < Z.pos mr ^ 4) by (apply Z.pow_pos_nonneg; lia).
    apply (f_equal Z.log2) in Hp.
    rewrite !Z.log2_mul_pow2 in Hp by lia. lia. }
  pose proof (log2_fourth_power (Z.pos mr) ltac:(lia)) as Hb.
  assert (Hd : (Z.pos (digits2_pos mx) + ex + 3) / 4 = Z.pos (digits2_pos mr) + er).
  { rewrite !digits2_pos_log2. Z.div_mod_to_equations. lia. }
  assert (Hn : (if 4 * er <=? ex then Z.pos mx * 2 ^ (ex - 4 * er)
                else Z.pos mx / 2 ^ (4 * er - ex)) = Z.pos mr ^ 4).
  { destruct (4 * er <=? ex) eqn:E.
    - apply Z.leb_le in E. rewrite Z.min_r in Hp by lia.
      rewrite Z.sub_diag in Hp. change (2 ^ 0) with 1 in Hp. lia.
    - apply Z.leb_gt in E. rewrite Z.min_l in Hp by lia.
      rewrite Z.sub_diag in Hp. change (2 ^ 0) with 1 in Hp.
      rewrite Z.mul_1_r in Hp. rewrite Hp. apply Z.div_mul.
      apply Z.pow_nonzero; lia. }
  unfold Sample.exact_root4. rewrite Hd.
  change (fexp F64.prec F64.emax) with (fexp 53 1024) in *. rewrite Hc, Hn.
  rewrite sqrt_sqrt_fourth_power by lia. reflexivity.
Qed.

(** The sample platform returns exact fourth roots. *)
Lemma sample_pow_exact_roots : Py.pow_exact_roots Sample.libm.
Proof.
  intros x r Hv Hp.
  change (Py.pow Sample.libm x F64.quarter) with (Py.Ok (Sample.pow_quarter x)).
  unfold Sample.pow_quarter. rewrite (exact_root4_unique x r Hv Hp), Hv, Hp.
  reflexivity.
Qed.


End RootFacts.

(** ** Facts about the Python operations *)

Module PyFacts.

Import Py F64Facts.
Local Open Scope string_scope.

Lemma min_cases (a b : F64.float) : Py.min a b = a \/ Py.min a b = b.
Proof. unfold Py.min. destruct (F64.ltb b a); auto. Qed.

Lemma min_not_nan (a b : F64.float) :
  F64.is_nan a = false -> F64.is_nan b = false -> F64.is_nan (Py.min a b) = false.
Proof. intros Ha Hb. destruct (min_cases a b) as [-> | ->]; assumption. Qed.

Lemma min_le_l (a b : F64.float) :
  F64.is_nan a = false -> F64.leb (Py.min a b) a = true.
Proof.
  intros Ha. unfold Py.min. destruct (F64.ltb b a) eqn:E.
  - now apply ltb_leb.
  - now apply leb_refl.
Qed.

Lemma min_le_r (a b : F64.float) :
  F64.is_nan a = false -> F64.is_nan b = false -> F64.leb (Py.min a b) b = true.
Proof.
  intros Ha Hb. unfold Py.min. destruct (F64.ltb b a) eqn:E.
  - now apply leb_refl.
  - now apply not_ltb_leb.
Qed.

(** [reduce(min, [x] + xs)] on numbers: one of them, below all of them. *)
Lemma fold_min (xs : list F64.float) :
  forall x, Forall (fun s => F64.is_nan s = false) (x :: xs) ->
  let t := fold_left Py.min xs x in
  In t (x :: xs) /\ F64.is_nan t = false /\
  forall s, In s (x :: xs) -> F64.leb t s = true.
Proof.
  induction xs as [|y ys IH]; intros x H; inversion_clear H as [|? ? Hx Hxs].
  - simpl. repeat split; auto. intros s [<- | []]. now apply leb_refl.
  - inversion_clear Hxs as [|? ? Hy Hys].
    destruct (IH (Py.min x y)) as (Hin & Hnan & Hle).
    { constructor; auto using min_not_nan. }
    cbn [fold_left] in *. repeat split; auto.
    + destruct Hin as [Hin | Hin]; [|now right; right].
      rewrite <- Hin. destruct (min_cases x y) as [-> | ->]; simpl; auto.
    + intros s [<- | [<- | Hs]].
      * eapply leb_trans; [apply Hle; now left | now apply min_le_l].
      * eapply leb_trans; [apply Hle; now left | now apply min_le_r].
      * apply Hle. now right.
Qed.

Lemma eqb_one (x : F64.float) : F64.eqb x F64.one = true -> x = F64.one.
Proof.
  unfold F64.eqb, SFeqb, F64.one.
  destruct x as [s|s| |s m e]; try destruct s; cbn [SFcompare]; try discriminate.
  destruct (Z.compare_spec e (-52)); try discriminate. subst.
  rewrite compare_cont_Eq.
  destruct (Pos.compare_spec m 4503599627370496); try discriminate. now subst.
Qed.

(** *** The digits of [format(x, "0.06f")] *)

Lemma digit_is_digit (d : Z) : Spec.is_digit (digit d) = true.
Proof.
  unfold digit. pose proof (Z.mod_pos_bound d 10 ltac:(lia)) as H.
  assert (E : d mod 10 = 0 \/ d mod 10 = 1 \/ d mod 10 = 2 \/ d mod 10 = 3 \/
              d mod 10 = 4 \/ d mod 10 = 5 \/ d mod 10 = 6 \/ d mod 10 = 7 \/
              d mod 10 = 8 \/ d mod 10 = 9) by lia.
  repeat (destruct E as [-> | E]; [reflexivity|]). now rewrite E.
Qed.

Lemma string_of_uint_digits (u : Decimal.uint) :
  Spec.all_digits (NilEmpty.string_of_uint u) = true.
Proof. induction u; simpl; auto. Qed.

Lemma decimal_digits (n : Z) : Spec.all_digits (decimal n) = true.
Proof. apply string_of_uint_digits. Qed.


Lemma frac6_digits (k : Z) : Spec.all_digits (frac6 k) = true.
Proof. unfold frac6. cbn [Spec.all_digits]. now rewrite !digit_is_digit. Qed.


(** A few renderings, as the interpreter prints them. *)
Example format_eighth :
  float_format_f6 (F64.div F64.one (F64.of_Z 8)) = "0.125000".
Proof. vm_compute. reflexivity. Qed.

Example format_third :
  float_format_f6 (F64.div F64.one (F64.of_Z 3)) = "0.333333".
Proof. vm_compute. reflexivity. Qed.

Example format_rounds_up :
  float_format_f6 (F64.div (F64.of_Z 15) (F64.of_Z 10000000)) = "0.000002".
Proof. vm_compute. reflexivity. Qed.

Example format_rounds_down :
  float_format_f6 (F64.div (F64.of_Z 5) (F64.of_Z 10000000)) = "0.000000".
Proof. vm_compute. reflexivity. Qed.

Example format_large :
  float_format_f6 (F64.div (F64.of_Z 12345) (F64.of_Z 10)) = "1234.500000".
Proof. vm_compute. reflexivity. Qed.

Example format_infinity : float_format_f6 F64.infinity = "inf".
Proof. reflexivity. Qed.

End PyFacts.

(** ** The run of the script *)

Module BenchFacts.

Import Py Timeit Bench F64Facts PyFacts.
Local Open Scope string_scope.
Local Open Scope py_scope.

(** *** One pass of the loop *)

Lemma measure_ok (w : world) (source : string) (st : state) (t : F64.float) :
  min_time w (List.length (opened st)) source = Ok t ->
  measure w source st =
    (Ok t, {| stdout := (stdout st ++ [seconds_line source t])%list;
              opened := (opened st ++ List.repeat (json_path source) 3)%list |}).
Proof.
  unfold min_time, measure, Timeit.repeat, timeit, bind, ret, lift, print.
  cbn [opened stdout fst snd]. rewrite !length_app. cbn [List.length].
  rewrite <- !Nat.add_assoc. cbn [Nat.add]. rewrite !Nat.add_1_r.
  replace (List.length (opened st) + 2)%nat with (S (S (List.length (opened st)))) by lia.
  destruct (trial w _ _) as [s0|]; [|discriminate].
  destruct (trial w (S _) _) as [s1|]; [|discriminate].
  destruct (trial w (S (S _)) _) as [s2|]; [|discriminate].
  cbn. intros [= <-]. now rewrite <- !app_assoc.
Qed.

Lemma measure_raise (w : world) (source : string) (st : state) (e : exn) :
  min_time w (List.length (opened st)) source = Raise e ->
  exists st', measure w source st = (Raise e, st') /\ stdout st' = stdout st.
Proof.
  unfold min_time, measure, Timeit.repeat, timeit, bind, ret, lift, print.
  cbn [opened stdout fst snd]. rewrite !length_app. cbn [List.length].
  rewrite <- !Nat.add_assoc. cbn [Nat.add]. rewrite !Nat.add_1_r.
  replace (List.length (opened st) + 2)%nat with (S (S (List.length (opened st)))) by lia.
  destruct (trial w _ _) as [s0|]; [|intros [= <-]; eauto].
  destruct (trial w (S _) _) as [s1|]; [|intros [= <-]; eauto].
  destruct (trial w (S (S _)) _) as [s2|]; [discriminate|intros [= <-]; eauto].
Qed.

(** An exception of a pass is the exception of one of its statements. *)
Lemma min_time_raise (w : world) (k : nat) (source : string) (e : exn) :
  min_time w k source = Raise e ->
  exists i, trial w i (json_path source) = Raise e.
Proof.
  unfold min_time.
  destruct (trial w k _) eqn:E0; [|intros [= <-]; eauto].
  destruct (trial w (1 + k) _) eqn:E1; [|intros [= <-]; eauto].
  destruct (trial w (2 + k) _) eqn:E2; [discriminate|intros [= <-]; eauto].
Qed.

(** *** The whole loop *)

Lemma seconds_lines_cons (s : string) (t : F64.float) srcs ts :
  seconds_lines (s :: srcs) (t :: ts) = seconds_line s t :: seconds_lines srcs ts.
Proof. reflexivity. Qed.

Lemma measure_all_ok (w : world) (srcs : list string) :
  forall acc st ts,
  min_times_from w (List.length (opened st)) srcs = Ok ts ->
  measure_all w srcs acc st =
    (Ok (acc ++ ts)%list,
     {| stdout := (stdout st ++ seconds_lines srcs ts)%list;
        opened := (opened st ++ schedule srcs)%list |}).
Proof.
  induction srcs as [|s rest IH]; intros acc st ts; cbn [min_times_from measure_all].
  - intros [= <-]. unfold ret. destruct st. cbn. now rewrite !app_nil_r.
  - destruct (min_time w _ s) as [t|] eqn:Et; [|discriminate]. cbn [obind].
    destruct (min_times_from w _ rest) as [ts'|] eqn:Ets; [|discriminate].
    intros [= <-]. unfold bind. rewrite (measure_ok _ _ _ _ Et).
    rewrite (IH _ _ ts').
    + cbn [stdout opened]. rewrite seconds_lines_cons.
      unfold schedule. cbn [flat_map]. now rewrite <- !app_assoc.
    + cbn [opened]. rewrite length_app, repeat_length, Nat.add_comm. exact Ets.
Qed.

Lemma measure_all_raise (w : world) (srcs : list string) :
  forall acc st e,
  min_times_from w (List.length (opened st)) srcs = Raise e ->
  exists st' done ts,
    measure_all w srcs acc st = (Raise e, st') /\
    incl done srcs /\
    stdout st' = (stdout st ++ seconds_lines done ts)%list.
Proof.
  induction srcs as [|s rest IH]; intros acc st e; cbn [min_times_from measure_all].
  - discriminate.
  - unfold bind. destruct (min_time w _ s) as [t|e'] eqn:Et; cbn [obind].
    + destruct (min_times_from w _ rest) as [ts'|e'] eqn:Ets; [discriminate|].
      intros [= <-]. rewrite (measure_ok _ _ _ _ Et).
      destruct (IH (acc ++ [t])%list
                  {| stdout := (stdout st ++ [seconds_line s t])%list;
                     opened := (opened st ++ List.repeat (json_path s) 3)%list |} e')
        as (st' & done & ts & Hrun & Hincl & Hout).
      { cbn [opened]. rewrite length_app, repeat_length, Nat.add_comm. exact Ets. }
      exists st', (s :: done), (t :: ts). split; [exact Hrun|]. split.
      * intros x [<- | Hx]; [now left | right; auto].
      * rewrite Hout. cbn [stdout]. now rewrite seconds_lines_cons, <- app_assoc.
    + intros [= <-]. destruct (measure_raise _ _ _ _ Et) as (st' & -> & Hout).
      exists st', [], []. split; [reflexivity|]. split; [easy|].
      rewrite Hout. unfold seconds_lines. cbn. now rewrite app_nil_r.
Qed.

Lemma min_times_from_raise (w : world) (srcs : list string) :
  forall k e, min_times_from w k srcs = Raise e ->
  exists i source, In source srcs /\ trial w i (json_path source) = Raise e.
Proof.
  induction srcs as [|s rest IH]; intros k e; cbn [min_times_from]; [discriminate|].
  destruct (min_time w k s) as [t|e'] eqn:Et; cbn [obind].
  - destruct (min_times_from w _ rest) as [ts|e'] eqn:Ets; [discriminate|].
    intros [= <-]. destruct (IH _ _ Ets) as (i & src & Hin & Hi).
    exists i, src. split; [now right | exact Hi].
  - intros [= <-]. destruct (min_time_raise _ _ _ _ Et) as (i & Hi).
    exists i, s. split; [now left | exact Hi].
Qed.

(** A missing file stops the loop. *)
Lemma min_times_from_unreadable (w : world) (source : string) (srcs : list string) :
  In source srcs -> unreadable w (json_path source) ->
  forall k, exists e, min_times_from w k srcs = Raise e.
Proof.
  intros Hin Hw. induction srcs as [|s rest IH]; [easy|]. intros k.
  cbn [min_times_from]. destruct (min_time w k s) as [t|e] eqn:Et; cbn [obind]; eauto.
  destruct Hin as [-> | Hin].
  - unfold min_time in Et. destruct (Hw k) as [H | H]; rewrite H in Et; discriminate.
  - destruct (IH Hin (3 + k)%nat) as (e & ->). cbn [obind]. eauto.
Qed.

(** *** The end of the run *)

(** A run that ends normally went through every pass and the report. *)
Lemma run_ok_inv (L : libm) (w : world) (st : state) :
  run L w = (Ok tt, st) ->
  exists t1 t2 t3 t4 g line,
    min_time w 0 "canada" = Ok t1 /\
    min_time w 3 "citm_catalog" = Ok t2 /\
    min_time w 6 "citylots" = Ok t3 /\
    min_time w 9 "twitter" = Ok t4 /\
    geo_mean L [t1; t2; t3; t4] = Ok g /\
    total_line g = Ok line /\
    stdout st = [seconds_line "canada" t1; seconds_line "citm_catalog" t2;
                 seconds_line "citylots" t3; seconds_line "twitter" t4; line] /\
    opened st = schedule sources.
Proof.
  unfold run, main, bind.
  destruct (min_times_from w (List.length (opened initial)) sources) as [ts|e] eqn:E.
  - rewrite (measure_all_ok _ _ _ _ _ E).
    unfold sources in E. cbn [min_times_from initial opened List.length Nat.add] in E.
    destruct (min_time w 0 _) as [t1|] eqn:E1; [|discriminate].
    destruct (min_time w 3 _) as [t2|] eqn:E2; [|discriminate].
    destruct (min_time w 6 _) as [t3|] eqn:E3; [|discriminate].
    destruct (min_time w 9 _) as [t4|] eqn:E4; [|discriminate].
    cbn [obind] in E. injection E as <-.
    unfold report, bind, lift, print. cbn [app].
    destruct (geo_mean L _) as [g|] eqn:Eg; [|discriminate].
    destruct (total_line g) as [line|] eqn:El; [|discriminate].
    intros [= <-]. exists t1, t2, t3, t4, g, line. cbn [stdout opened initial app].
    repeat split; auto.
  - destruct (measure_all_raise _ _ [] _ _ E) as (st' & done & ts & -> & _).
    discriminate.
Qed.

(** A run whose loop raises prints no total. *)
Lemma seconds_line_not_total (source : string) (t : F64.float) :
  In source sources -> Spec.starts_with "Total (G.M):" (seconds_line source t) = false.
Proof.
  intros [<- | [<- | [<- | [<- | []]]]]; reflexivity.
Qed.

Lemma seconds_lines_not_total (done : list string) (ts : list F64.float) :
  incl done sources ->
  Forall (fun line => Spec.starts_with "Total (G.M):" line = false)
         (seconds_lines done ts).
Proof.
  intros Hincl. apply Forall_forall. intros line Hline.
  apply in_map_iff in Hline as ([s t] & <- & Hst).
  apply in_combine_l in Hst. now apply seconds_line_not_total, Hincl.
Qed.

Lemma min_time_duration (w : world) (k : nat) (source : string) (t : F64.float) :
  clock_sane w -> min_time w k source = Ok t -> F64.duration t = true.
Proof.
  intros Hw. unfold min_time.
  destruct (trial w k _) as [s0|] eqn:E0; [|discriminate].
  destruct (trial w (1 + k) _) as [s1|] eqn:E1; [|discriminate].
  destruct (trial w (2 + k) _) as [s2|] eqn:E2; [|discriminate].
  cbn [obind]. intros [= <-].
  destruct (min_cases (Py.min s0 s1) s2) as [-> | ->]; [|eauto].
  destruct (min_cases s0 s1) as [-> | ->]; eauto.
Qed.

Lemma sample_clock_sane : clock_sane Sample.world.
Proof.
  intros k path x [= <-]. unfold Sample.elapsed.
  destruct (nth_in_or_default k Sample.timings F64.one) as [Hin | ->]; [|reflexivity].
  revert Hin. generalize (nth k Sample.timings F64.one). apply Forall_forall.
  repeat constructor.
Qed.

(** Three statements that complete give [repeat] its three timings. *)
Lemma repeat_three (w : world) (path : string) (st : state) (s0 s1 s2 : F64.float) :
  trial w (List.length (opened st)) path = Ok s0 ->
  trial w (1 + List.length (opened st)) path = Ok s1 ->
  trial w (2 + List.length (opened st)) path = Ok s2 ->
  Timeit.repeat w path 3 st =
    (Ok [s0; s1; s2],
     {| stdout := stdout st; opened := (opened st ++ List.repeat path 3)%list |}).
Proof.
  intros E0 E1 E2. unfold Timeit.repeat, timeit, bind, ret.
  cbn [opened stdout fst snd]. rewrite !length_app. cbn [List.length].
  rewrite <- !Nat.add_assoc. cbn [Nat.add]. rewrite !Nat.add_1_r.
  replace (List.length (opened st) + 2)%nat with (2 + List.length (opened st))%nat by lia.
  rewrite E0. change (S (List.length (opened st))) with (1 + List.length (opened st))%nat.
  rewrite E1, E2. cbn. now rewrite <- !app_assoc.
Qed.

(** The run on the sample machine, and the run after [citylots.json] was
    deleted. *)
Example sample_run :
  run Sample.libm Sample.world =
    (Ok tt,
     {| stdout := ["canada 0.125000 seconds"; "citm_catalog 0.312500 seconds";
                   "citylots 0.500000 seconds"; "twitter 0.687500 seconds";
                   "Total (G.M): 0.340409"];
        opened := schedule sources |}).
Proof. vm_compute. reflexivity. Qed.

Example sample_run_without_citylots :
  run Sample.libm (Sample.world_without "../data/citylots.json") =
    (Raise (FileNotFoundError "../data/citylots.json"),
     {| stdout := ["canada 0.125000 seconds"; "citm_catalog 0.312500 seconds"];
        opened := ["../data/canada.json"; "../data/canada.json";
                   "../data/canada.json"; "../data/citm_catalog.json";
                   "../data/citm_catalog.json"; "../data/citm_catalog.json";
                   "../data/citylots.json"] |}).
Proof. vm_compute. reflexivity. Qed.

(** *** The claims about the loop and the run *)

(** C1: each pass of the loop takes exactly three timings of the source's
    file; when the three statements complete with elapsed times [s0], [s1]
    and [s2] (finite and not negative), the pass returns a minimum [t] that
    is one of the three samples and is below or equal to each of them. *)
Theorem measure_minimum_of_three (w : world) (source : string) (st : state)
    (s0 s1 s2 : F64.float) :
  trial w (List.length (opened st)) (json_path source) = Ok s0 ->
  trial w (1 + List.length (opened st)) (json_path source) = Ok s1 ->
  trial w (2 + List.length (opened st)) (json_path source) = Ok s2 ->
  F64.duration s0 = true -> F64.duration s1 = true -> F64.duration s2 = true ->
  exists t st1 st',
    Timeit.repeat w (json_path source) 3 st = (Ok [s0; s1; s2], st1) /\
    reduce Py.min [s0; s1; s2] = Ok t /\
    measure w source st = (Ok t, st') /\
    opened st' = (opened st ++ List.repeat (json_path source) 3)%list /\
    In t [s0; s1; s2] /\
    forall s, In s [s0; s1; s2] -> F64.leb t s = true.
Proof.
  intros E0 E1 E2 D0 D1 D2.
  assert (Et : min_time w (List.length (opened st)) source
               = Ok (Py.min (Py.min s0 s1) s2)).
  { unfold min_time. now rewrite E0, E1, E2. }
  destruct (fold_min [s1; s2] s0) as (Hin & _ & Hle).
  { repeat constructor; now apply duration_not_nan. }
  eexists _, _, _. split; [exact (repeat_three _ _ _ _ _ _ E0 E1 E2)|].
  split; [reflexivity|]. split; [exact (measure_ok _ _ _ _ Et)|].
  split; [reflexivity|]. split; [exact Hin | exact Hle].
Qed.

Lemma measure_minimum_of_three_witness :
  exists t st1 st',
    Timeit.repeat Sample.world (json_path "canada") 3 initial
      = (Ok [Sample.elapsed 0; Sample.elapsed 1; Sample.elapsed 2], st1) /\
    reduce Py.min [Sample.elapsed 0; Sample.elapsed 1; Sample.elapsed 2] = Ok t /\
    measure Sample.world "canada" initial = (Ok t, st') /\
    opened st' = (opened initial ++ List.repeat (json_path "canada") 3)%list /\
    In t [Sample.elapsed 0; Sample.elapsed 1; Sample.elapsed 2] /\
    forall s, In s [Sample.elapsed 0; Sample.elapsed 1; Sample.elapsed 2] ->
              F64.leb t s = true.
Proof.
  apply (measure_minimum_of_three Sample.world "canada" initial
           (Sample.elapsed 0) (Sample.elapsed 1) (Sample.elapsed 2));
    reflexivity.
Defined.

(** C3: a run that ends normally has gone through exactly the four
    sources canada, citm_catalog, citylots, twitter in that order: it has
    opened [../data/<name>.json] three times for each, in that order and
    nothing else; the minimum times it collected are those of the four
    sources in the same order; and the last line it printed is the aggregate
    of that sequence. *)
Theorem main_control (L : libm) (w : world) (st : state) :
  run L w = (Ok tt, st) ->
  sources = ["canada"; "citm_catalog"; "citylots"; "twitter"] /\
  opened st =
    ["../data/canada.json"; "../data/canada.json"; "../data/canada.json";
     "../data/citm_catalog.json"; "../data/citm_catalog.json";
     "../data/citm_catalog.json";
     "../data/citylots.json"; "../data/citylots.json"; "../data/citylots.json";
     "../data/twitter.json"; "../data/twitter.json"; "../data/twitter.json"] /\
  exists t1 t2 t3 t4 g line,
    min_times_from w 0 sources = Ok [t1; t2; t3; t4] /\
    min_time w 0 "canada" = Ok t1 /\
    min_time w 3 "citm_catalog" = Ok t2 /\
    min_time w 6 "citylots" = Ok t3 /\
    min_time w 9 "twitter" = Ok t4 /\
    geo_mean L [t1; t2; t3; t4] = Ok g /\
    total_line g = Ok line /\
    exists lines, stdout st = (lines ++ [line])%list /\ List.length lines = 4%nat.
Proof.
  intros Hrun.
  destruct (run_ok_inv _ _ _ Hrun)
    as (t1 & t2 & t3 & t4 & g & line & E1 & E2 & E3 & E4 & Eg & El & Hout & Hop).
  split; [reflexivity|]. split; [exact Hop|].
  exists t1, t2, t3, t4, g, line. split.
  { unfold sources. cbn [min_times_from Nat.add]. now rewrite E1, E2, E3, E4. }
  repeat (split; [assumption|]).
  eexists [_; _; _; _]. split; [exact Hout | reflexivity].
Qed.

Lemma main_control_witness :
  sources = ["canada"; "citm_catalog"; "citylots"; "twitter"] /\
  opened Sample.final =
    ["../data/canada.json"; "../data/canada.json"; "../data/canada.json";
     "../data/citm_catalog.json"; "../data/citm_catalog.json";
     "../data/citm_catalog.json";
     "../data/citylots.json"; "../data/citylots.json"; "../data/citylots.json";
     "../data/twitter.json"; "../data/twitter.json"; "../data/twitter.json"] /\
  exists t1 t2 t3 t4 g line,
    min_times_from Sample.world 0 sources = Ok [t1; t2; t3; t4] /\
    min_time Sample.world 0 "canada" = Ok t1 /\
    min_time Sample.world 3 "citm_catalog" = Ok t2 /\
    min_time Sample.world 6 "citylots" = Ok t3 /\
    min_time Sample.world 9 "twitter" = Ok t4 /\
    geo_mean Sample.libm [t1; t2; t3; t4] = Ok g /\
    total_line g = Ok line /\
    exists lines, stdout Sample.final = (lines ++ [line])%list /\
                  List.length lines = 4%nat.
Proof.
  apply (main_control Sample.libm Sample.world Sample.final).
  vm_compute. reflexivity.
Defined.

(** C5: when the file of one of the sources does not exist or cannot be
    read, the run ends with an uncaught exception, which is the exception
    one of the timed statements raised; the exit status is not zero; and no
    line printed starts with [Total (G.M):]. *)
Theorem unreadable_file_aborts (L : libm) (w : world) (source : string) :
  In source sources ->
  unreadable w (json_path source) ->
  exists e st,
    run L w = (Raise e, st) /\
    exit_status (fst (run L w)) <> 0 /\
    (exists k failing, In failing sources /\ trial w k (json_path failing) = Raise e) /\
    Forall (fun line => Spec.starts_with "Total (G.M):" line = false) (stdout st).
Proof.
  intros Hin Hw.
  destruct (min_times_from_unreadable w source sources Hin Hw
              (List.length (opened initial))) as (e & He).
  destruct (measure_all_raise _ _ [] _ _ He) as (st' & done & ts & Hrun & Hincl & Hout).
  assert (R : run L w = (Raise e, st')).
  { unfold run, main, bind. now rewrite Hrun. }
  exists e, st'. split; [exact R|]. split; [rewrite R; discriminate|]. split.
  - exact (min_times_from_raise _ _ _ _ He).
  - rewrite Hout. cbn [stdout initial app]. now apply seconds_lines_not_total.
Qed.

Lemma unreadable_file_aborts_witness :
  exists e st,
    run Sample.libm (Sample.world_without "../data/citylots.json") = (Raise e, st) /\
    exit_status (fst (run Sample.libm (Sample.world_without "../data/citylots.json"))) <> 0 /\
    (exists k failing,
        In failing sources /\
        trial (Sample.world_without "../data/citylots.json") k (json_path failing)
          = Raise e) /\
    Forall (fun line => Spec.starts_with "Total (G.M):" line = false) (stdout st).
Proof.
  apply (unreadable_file_aborts Sample.libm
           (Sample.world_without "../data/citylots.json") "citylots").
  - right. right. left. reflexivity.
  - intros k. left. reflexivity.
Defined.

(** C10: on an empty sequence of minimum times the geometric mean is not
    a number: [reduce] with no initial value raises [TypeError], so the
    report raises too and prints nothing. *)
Theorem empty_min_times_raise (L : libm) (st : state) :
  geo_mean L [] = Raise (TypeError "reduce() of empty iterable with no initial value") /\
  report L [] st =
    (Raise (TypeError "reduce() of empty iterable with no initial value"), st).
Proof. split; reflexivity. Qed.

(** *** The geometric mean *)

Lemma int_truediv_1_1 : int_truediv 1 (Z.of_nat 1) = Ok F64.one.
Proof. vm_compute. reflexivity. Qed.

Lemma int_truediv_1_4 : int_truediv 1 (Z.of_nat 4) = Ok F64.quarter.
Proof. vm_compute. reflexivity. Qed.

(** On four times the exponent is [0.25]. *)
Lemma geo_mean_four (L : libm) (a b c d : F64.float) :
  geo_mean L [a; b; c; d] =
  float_pow L (F64.mul (F64.mul (F64.mul a b) c) d) F64.quarter.
Proof.
  unfold geo_mean, reduce. cbn [fold_left obind List.length].
  now rewrite int_truediv_1_4.
Qed.

Lemma float_pow_zero (L : libm) : float_pow L F64.zero F64.quarter = Ok (VFloat F64.zero).
Proof. reflexivity. Qed.

Lemma float_pow_nan (L : libm) : float_pow L F64.nan F64.quarter = Ok (VFloat F64.nan).
Proof. reflexivity. Qed.

Lemma float_pow_infinity (L : libm) :
  float_pow L F64.infinity F64.quarter = Ok (VFloat F64.infinity).
Proof. reflexivity. Qed.

(** A positive finite base at a positive finite exponent: [1.0] gives
    [1.0], anything else is the platform's [pow]. *)
Lemma float_pow_finite (L : libm) (m : positive) (e : Z) (m' : positive) (e' : Z) :
  float_pow L (S754_finite false m e) (S754_finite false m' e') =
  if F64.eqb (S754_finite false m e) F64.one then Ok (VFloat F64.one)
  else let? ix := pow L (S754_finite false m e) (S754_finite false m' e') in
       Ok (VFloat ix).
Proof. reflexivity. Qed.

(** C2: on a non-empty sequence of minimum times the script's geometric
    mean is the product of all of them (multiplied left to right from
    [1.0]) raised to the power [1/N], [N] the length of the sequence. *)
Theorem geo_mean_is_aggregate (L : libm) (t : F64.float) (ts : list F64.float) :
  F64.valid t = true ->
  geo_mean L (t :: ts) = Spec.aggregate L (t :: ts).
Proof.
  intros Hv. unfold geo_mean, Spec.aggregate, Spec.product, reduce.
  cbn [fold_left obind]. now rewrite (mul_one_l t Hv).
Qed.

Lemma geo_mean_is_aggregate_witness :
  geo_mean Sample.libm
    [Sample.elapsed 0; Sample.elapsed 3; Sample.elapsed 6; Sample.elapsed 9] =
  Spec.aggregate Sample.libm
    [Sample.elapsed 0; Sample.elapsed 3; Sample.elapsed 6; Sample.elapsed 9].
Proof.
  apply (geo_mean_is_aggregate Sample.libm (Sample.elapsed 0)
           [Sample.elapsed 3; Sample.elapsed 6; Sample.elapsed 9]).
  reflexivity.
Defined.

(** C6, as the specification states it, fails: the same four positive
    times in two orders give [inf] and [0.0], because the running product
    overflows in one order and underflows in the other. *)
Lemma geo_mean_depends_on_order :
  Permutation [Sample.huge; Sample.huge; Sample.tiny; Sample.tiny]
              [Sample.tiny; Sample.tiny; Sample.huge; Sample.huge] /\
  Forall (fun t => F64.is_positive t = true)
         [Sample.huge; Sample.huge; Sample.tiny; Sample.tiny] /\
  forall L : libm,
    geo_mean L [Sample.huge; Sample.huge; Sample.tiny; Sample.tiny]
      = Ok (VFloat F64.infinity) /\
    geo_mean L [Sample.tiny; Sample.tiny; Sample.huge; Sample.huge]
      = Ok (VFloat F64.zero) /\
    geo_mean L [Sample.huge; Sample.huge; Sample.tiny; Sample.tiny]
      <> geo_mean L [Sample.tiny; Sample.tiny; Sample.huge; Sample.huge].
Proof.
  split; [exact (Permutation_app_comm [Sample.huge; Sample.huge]
                                      [Sample.tiny; Sample.tiny])|].
  split; [repeat constructor|].
  intros L.
  assert (H1 : geo_mean L [Sample.huge; Sample.huge; Sample.tiny; Sample.tiny]
               = Ok (VFloat F64.infinity)) by (vm_compute; reflexivity).
  assert (H2 : geo_mean L [Sample.tiny; Sample.tiny; Sample.huge; Sample.huge]
               = Ok (VFloat F64.zero)) by (vm_compute; reflexivity).
  repeat split; try assumption. rewrite H1, H2. discriminate.
Qed.

(** C6, amended: the geometric mean does not change when the first two
    times change places, binary64 multiplication being commutative (it is
    not associative, so other reorderings can change the rounded product). *)
Theorem geo_mean_swap_first_two (L : libm) (a b : F64.float) (rest : list F64.float) :
  geo_mean L (a :: b :: rest) = geo_mean L (b :: a :: rest).
Proof.
  unfold geo_mean, reduce. cbn [fold_left List.length]. now rewrite (mul_comm a b).
Qed.

(** C7, as the specification states it, fails: for [v = 2.0 ** -300] the
    product of four copies underflows to zero and the geometric mean is
    [0.0], not [v]. *)
Lemma four_equal_times_underflow :
  F64.is_positive Sample.small = true /\
  forall L : libm,
    geo_mean L [Sample.small; Sample.small; Sample.small; Sample.small]
      = Ok (VFloat F64.zero) /\
    geo_mean L [Sample.small; Sample.small; Sample.small; Sample.small]
      <> Ok (VFloat Sample.small).
Proof.
  split; [reflexivity|]. intros L.
  assert (H : geo_mean L [Sample.small; Sample.small; Sample.small; Sample.small]
              = Ok (VFloat F64.zero)) by (vm_compute; reflexivity).
  split; [exact H|]. rewrite H. discriminate.
Qed.

(** C7, amended: for every positive [v] whose rounded product
    [((v*v)*v)*v] is exactly the fourth power of [v] (no rounding error, no
    underflow, no overflow), on a platform whose [pow] returns exact fourth
    roots, the geometric mean of [v, v, v, v] is [v] exactly. *)
Theorem four_equal_times_exact (L : libm) (v : F64.float) :
  pow_exact_roots L ->
  F64.valid v = true ->
  F64.is_fourth_power (F64.mul (F64.mul (F64.mul v v) v) v) v = true ->
  geo_mean L [v; v; v; v] = Ok (VFloat v).
Proof.
  intros HL Hv Hp. rewrite geo_mean_four.
  destruct (F64.mul (F64.mul (F64.mul v v) v) v) as [s|s| |[|] m e];
    try discriminate.
  unfold F64.quarter. rewrite float_pow_finite. fold F64.quarter.
  destruct (F64.eqb (S754_finite false m e) F64.one) eqn:E.
  - apply eqb_one in E. rewrite E in Hp.
    rewrite <- (RootFacts.exact_root4_unique F64.one v Hv Hp). reflexivity.
  - now rewrite (HL _ _ Hv Hp).
Qed.

Lemma four_equal_times_exact_witness :
  geo_mean Sample.libm
    [Sample.elapsed 1; Sample.elapsed 1; Sample.elapsed 1; Sample.elapsed 1]
  = Ok (VFloat (Sample.elapsed 1)).
Proof.
  apply (four_equal_times_exact Sample.libm (Sample.elapsed 1)).
  - exact RootFacts.sample_pow_exact_roots.
  - reflexivity.
  - vm_compute. reflexivity.
Defined.

(** The exactness of the product cannot be dropped, even far from
    underflow and overflow: for [v = 1.702961595143541] the product is
    rounded, and its correctly rounded fourth root is the float just below
    [v]. *)
Example four_equal_times_rounding :
  F64.is_fourth_power
    (F64.mul (F64.mul (F64.mul Sample.ordinary Sample.ordinary) Sample.ordinary)
       Sample.ordinary) Sample.ordinary = false /\
  geo_mean Sample.libm
    [Sample.ordinary; Sample.ordinary; Sample.ordinary; Sample.ordinary]
  = Ok (VFloat Sample.below_ordinary).
Proof. split; vm_compute; reflexivity. Qed.

(** C8: on a platform whose [pow(x, 1.0)] is [x], the geometric mean of
    the one-element sequence [v] is [v] for every positive [v]. *)
Theorem geo_mean_singleton (L : libm) (v : F64.float) :
  pow_exact_at_one L ->
  F64.is_positive v = true ->
  geo_mean L [v] = Ok (VFloat v).
Proof.
  intros HL Hv. unfold geo_mean, reduce. cbn [fold_left obind List.length].
  rewrite int_truediv_1_1. cbn [obind].
  destruct v as [[|]|[|]| |[|] m e]; try discriminate.
  - reflexivity.
  - unfold F64.one at 1. rewrite float_pow_finite.
    destruct (F64.eqb (S754_finite false m e) F64.one) eqn:E.
    + now rewrite (eqb_one _ E).
    + fold F64.one. now rewrite (HL _ Hv).
Qed.

Lemma sample_pow_exact_at_one : pow_exact_at_one Sample.libm.
Proof. intros x _. reflexivity. Qed.

Lemma geo_mean_singleton_witness :
  geo_mean Sample.libm [Sample.elapsed 0] = Ok (VFloat (Sample.elapsed 0)).
Proof.
  apply (geo_mean_singleton Sample.libm (Sample.elapsed 0)).
  - exact sample_pow_exact_at_one.
  - reflexivity.
Defined.

Lemma mul_zero_l (y : F64.float) :
  F64.duration y = true -> F64.mul F64.zero y = F64.zero.
Proof. destruct y as [[|]|[|]| |[|] m e]; try discriminate; reflexivity. Qed.

Lemma mul_zero_r (x : F64.float) :
  F64.nonneg x -> F64.mul x F64.zero = F64.zero \/
              (x = F64.infinity /\ F64.mul x F64.zero = F64.nan).
Proof. intros [ | m e | ]; auto. Qed.

(** C9, as the specification states it, fails: with a minimum time of
    exactly zero the geometric mean is the float [0.0], neither complex
    nor a NaN, and nothing is raised. *)
Lemma zero_time_gives_zero :
  In F64.zero [F64.zero; F64.one; F64.one; F64.one] /\
  Forall (fun t => F64.duration t = true) [F64.zero; F64.one; F64.one; F64.one] /\
  forall L : libm,
    geo_mean L [F64.zero; F64.one; F64.one; F64.one] = Ok (VFloat F64.zero) /\
    ~ Spec.complex_or_undefined (geo_mean L [F64.zero; F64.one; F64.one; F64.one]).
Proof.
  split; [now left|]. split; [repeat constructor|]. intros L.
  assert (H : geo_mean L [F64.zero; F64.one; F64.one; F64.one] = Ok (VFloat F64.zero))
    by (vm_compute; reflexivity).
  split; [exact H|]. rewrite H. cbn. discriminate.
Qed.

(** C9, amended: when one of the four minimum times is exactly zero and
    all are finite and not negative, the geometric mean raises nothing and
    is never complex.  It is NaN exactly when the running product is
    infinite at the moment it is multiplied by a zero time (it had
    overflowed before it met the zero), and the float [0.0] in every other
    case. *)
Theorem zero_time_geo_mean (L : libm) (a b c d : F64.float) :
  Forall (fun t => F64.duration t = true) [a; b; c; d] ->
  In F64.zero [a; b; c; d] ->
  geo_mean L [a; b; c; d] =
    Ok (VFloat (if Spec.overflow_meets_zero a b c d then F64.nan else F64.zero)).
Proof.
  intros Hd Hz. rewrite geo_mean_four. unfold Spec.overflow_meets_zero.
  inversion_clear Hd as [|? ? Da Hd']. inversion_clear Hd' as [|? ? Db Hd].
  inversion_clear Hd as [|? ? Dc Hd']. inversion_clear Hd' as [|? ? Dd _].
  assert (Z1 : a = F64.zero \/ b = F64.zero -> F64.mul a b = F64.zero).
  { intros [-> | ->]; [now apply mul_zero_l|].
    destruct (mul_zero_r a (duration_nonneg _ Da)) as [H | (-> & _)];
      [exact H | discriminate]. }
  assert (N1 : F64.nonneg (F64.mul a b)).
  { destruct (mul_nonneg _ _ (duration_nonneg _ Da) Db) as [H | (-> & _)];
      [exact H | discriminate]. }
  destruct c as [[|]|[|]| |[|] mc ec]; try discriminate.
  - (* the third time is the zero *)
    change (F64.eqb (S754_zero false) F64.zero) with true. rewrite andb_true_r.
    destruct N1 as [ | m1 e1 | ].
    + change (F64.mul (S754_zero false) (S754_zero false)) with F64.zero.
      rewrite (mul_zero_l d Dd). apply float_pow_zero.
    + change (F64.mul (S754_finite false m1 e1) (S754_zero false)) with F64.zero.
      rewrite (mul_zero_l d Dd). apply float_pow_zero.
    + change (F64.mul (S754_infinity false) (S754_zero false)) with F64.nan.
      change (F64.mul F64.nan d) with F64.nan. apply float_pow_nan.
  - (* the third time is positive *)
    change (F64.eqb (S754_finite false mc ec) F64.zero) with false.
    rewrite andb_false_r, orb_false_l.
    destruct (mul_nonneg _ _ N1 Dc) as [N2 | (_ & H & _)]; [|discriminate].
    destruct d as [[|]|[|]| |[|] md ed]; try discriminate.
    + change (F64.eqb (S754_zero false) F64.zero) with true. rewrite andb_true_r.
      destruct N2 as [ | m2 e2 | ]; cbn [F64.is_infinity].
      * apply float_pow_zero.
      * apply float_pow_zero.
      * apply float_pow_nan.
    + change (F64.eqb (S754_finite false md ed) F64.zero) with false.
      rewrite andb_false_r.
      assert (Hab : a = F64.zero \/ b = F64.zero).
      { destruct Hz as [H | [H | [H | [H | []]]]]; auto; discriminate. }
      rewrite (Z1 Hab). apply float_pow_zero.
Qed.

Lemma zero_time_geo_mean_witness :
  geo_mean Sample.libm [Sample.huge; Sample.huge; F64.zero; F64.one] =
    Ok (VFloat (if Spec.overflow_meets_zero Sample.huge Sample.huge F64.zero F64.one
                then F64.nan else F64.zero)).
Proof.
  apply (zero_time_geo_mean Sample.libm Sample.huge Sample.huge F64.zero F64.one).
  - repeat constructor.
  - right. right. left. reflexivity.
Defined.

(** The two cases at work: a zero among ordinary times gives [0.0], a zero
    after an overflow gives NaN. *)
Example zero_time_ordinary :
  geo_mean Sample.libm [Sample.elapsed 0; F64.zero; Sample.elapsed 6; Sample.elapsed 9]
  = Ok (VFloat F64.zero).
Proof. vm_compute. reflexivity. Qed.

Example zero_time_after_overflow :
  geo_mean Sample.libm [Sample.huge; Sample.huge; F64.zero; F64.one]
  = Ok (VFloat F64.nan).
Proof. vm_compute. reflexivity. Qed.

End BenchFacts.

(** ** More about the run: failures, partial output, special values *)

Module RunFacts.

Import Py Timeit Bench F64Facts PyFacts BenchFacts.
Local Open Scope string_scope.
Local Open Scope py_scope.

(** *** The first statement that raises *)

(** A pass whose statement number [r] is the first to raise ends there. *)
Lemma measure_first_failure (w : world) (source : string) (st : state)
    (r : nat) (e : exn) :
  (r < 3)%nat ->
  (forall j, (j < r)%nat ->
     exists x, trial w (j + List.length (opened st)) (json_path source) = Ok x) ->
  trial w (r + List.length (opened st)) (json_path source) = Raise e ->
  measure w source st =
    (Raise e, {| stdout := stdout st;
                 opened := (opened st ++ List.repeat (json_path source) (S r))%list |}).
Proof.
  intros Hr Hbefore Hfail.
  unfold measure, Timeit.repeat, timeit, bind, ret, lift, print.
  cbn [opened stdout fst snd]. rewrite !length_app. cbn [List.length].
  rewrite <- !Nat.add_assoc. cbn [Nat.add]. rewrite !Nat.add_1_r.
  replace (List.length (opened st) + 2)%nat with (2 + List.length (opened st))%nat by lia.
  change (S (List.length (opened st))) with (1 + List.length (opened st))%nat.
  destruct r as [|[|[|r]]]; try lia.
  - cbn [Nat.add] in Hfail. rewrite Hfail. reflexivity.
  - destruct (Hbefore 0%nat ltac:(lia)) as (x0 & E0). cbn [Nat.add] in E0.
    rewrite E0, Hfail. cbn. now rewrite <- !app_assoc.
  - destruct (Hbefore 0%nat ltac:(lia)) as (x0 & E0). cbn [Nat.add] in E0.
    destruct (Hbefore 1%nat ltac:(lia)) as (x1 & E1).
    rewrite E0, E1, Hfail. cbn. now rewrite <- !app_assoc.
Qed.

Lemma schedule_app (xs ys : list string) :
  schedule (xs ++ ys) = (schedule xs ++ schedule ys)%list.
Proof. unfold schedule. apply flat_map_app. Qed.

Lemma schedule_length (srcs : list string) :
  List.length (schedule srcs) = (3 * List.length srcs)%nat.
Proof.
  induction srcs as [|s rest IH]; [reflexivity|].
  unfold schedule in *. cbn [flat_map]. rewrite length_app, IH, repeat_length.
  cbn [List.length]. lia.
Qed.

(** The loop when the sources before number [q] complete and statement
    number [r] of source number [q] is the first to raise. *)
Lemma measure_all_first_failure (w : world) (srcs : list string) :
  forall q acc st source r e ts,
  nth_error srcs q = Some source ->
  (r < 3)%nat ->
  min_times_from w (List.length (opened st)) (firstn q srcs) = Ok ts ->
  (forall j, (j < r)%nat ->
     exists x, trial w (j + (3 * q + List.length (opened st))) (json_path source) = Ok x) ->
  trial w (r + (3 * q + List.length (opened st))) (json_path source) = Raise e ->
  measure_all w srcs acc st =
    (Raise e,
     {| stdout := (stdout st ++ seconds_lines (firstn q srcs) ts)%list;
        opened := (opened st ++ schedule (firstn q srcs)
                     ++ List.repeat (json_path source) (S r))%list |}).
Proof.
  induction srcs as [|s rest IH]; intros q acc st source r e ts Hq Hr Hts Hbefore Hfail.
  - destruct q; discriminate.
  - destruct q as [|q].
    + injection Hq as ->. cbn [firstn min_times_from] in Hts. injection Hts as <-.
      cbn [measure_all]. unfold bind.
      rewrite (measure_first_failure w source st r e Hr).
      * unfold seconds_lines, schedule. cbn. now rewrite app_nil_r.
      * intros j Hj. destruct (Hbefore j Hj) as (x & Hx). exists x.
        now rewrite Nat.mul_0_r in Hx.
      * now rewrite Nat.mul_0_r in Hfail.
    + cbn [nth_error] in Hq. cbn [firstn min_times_from] in Hts.
      destruct (min_time w _ s) as [t|] eqn:Et; [|discriminate]. cbn [obind] in Hts.
      destruct (min_times_from w _ (firstn q rest)) as [ts'|] eqn:Ets; [|discriminate].
      injection Hts as <-.
      cbn [measure_all]. unfold bind. rewrite (measure_ok _ _ _ _ Et).
      rewrite (IH q _ _ source r e ts' Hq Hr).
      * cbn [stdout opened firstn]. rewrite seconds_lines_cons.
        unfold schedule. cbn [flat_map]. now rewrite <- !app_assoc.
      * cbn [opened]. rewrite length_app, repeat_length, Nat.add_comm. exact Ets.
      * intros j Hj. destruct (Hbefore j Hj) as (x & Hx). exists x.
        cbn [opened]. rewrite length_app, repeat_length.
        replace (j + (3 * q + (List.length (opened st) + 3)))%nat
          with (j + (3 * S q + List.length (opened st)))%nat by lia. exact Hx.
      * cbn [opened]. rewrite length_app, repeat_length.
        replace (r + (3 * q + (List.length (opened st) + 3)))%nat
          with (r + (3 * S q + List.length (opened st)))%nat by lia. exact Hfail.
Qed.

(** X1: when the sources before number [q] were measured and statement
    number [r] (of three) of source number [q] is the first to raise, the run
    ends with that very exception; it has printed the lines of the sources
    before [q] and nothing more, and it has opened no file after the failing
    one. *)
Theorem first_failure_ends_run (L : libm) (w : world)
    (q r : nat) (source : string) (e : exn) (ts : list F64.float) :
  nth_error sources q = Some source ->
  (r < 3)%nat ->
  min_times_from w 0 (firstn q sources) = Ok ts ->
  (forall j, (j < r)%nat -> exists x, trial w (j + 3 * q) (json_path source) = Ok x) ->
  trial w (r + 3 * q) (json_path source) = Raise e ->
  run L w =
    (Raise e,
     {| stdout := seconds_lines (firstn q sources) ts;
        opened := (schedule (firstn q sources)
                     ++ List.repeat (json_path source) (S r))%list |}).
Proof.
  intros Hq Hr Hts Hbefore Hfail. unfold run, main, bind.
  rewrite (measure_all_first_failure w sources q [] initial source r e ts Hq Hr Hts).
  - reflexivity.
  - intros j Hj. cbn [initial opened List.length]. rewrite Nat.add_0_r. auto.
  - cbn [initial opened List.length]. now rewrite Nat.add_0_r.
Qed.

Lemma first_failure_ends_run_witness :
  run Sample.libm (Sample.world_without "../data/citylots.json") =
    (Raise (FileNotFoundError "../data/citylots.json"),
     {| stdout := seconds_lines (firstn 2 sources) [Sample.elapsed 0; Sample.elapsed 3];
        opened := (schedule (firstn 2 sources)
                     ++ List.repeat (json_path "citylots") 1)%list |}).
Proof.
  apply (first_failure_ends_run Sample.libm
           (Sample.world_without "../data/citylots.json") 2 0 "citylots").
  - reflexivity.
  - lia.
  - reflexivity.
  - intros j Hj. lia.
  - reflexivity.
Defined.

(** *** The report *)

(** The report prints its line, or raises and prints nothing. *)
Lemma report_cases (L : libm) (ts : list F64.float) (st : state) :
  (exists g line,
      geo_mean L ts = Ok g /\ total_line g = Ok line /\
      report L ts st =
        (Ok tt, {| stdout := (stdout st ++ [line])%list; opened := opened st |})) \/
  (exists e, report L ts st = (Raise e, st)).
Proof.
  unfold report, bind, lift, print.
  destruct (geo_mean L ts) as [g|e] eqn:Eg; [|right; exists e; reflexivity].
  destruct (total_line g) as [line|e] eqn:El; [|right; exists e; reflexivity].
  left. exists g, line. repeat split. exact El.
Qed.

Lemma total_line_prefix (g : value) (line : string) :
  total_line g = Ok line -> Spec.starts_with "Total (G.M):" line = true.
Proof.
  unfold total_line. destruct (format_0_06f g) as [s|]; [|discriminate].
  cbn [obind]. intros [= <-]. reflexivity.
Qed.

Lemma not_total_not_exists (lines : list string) :
  Forall (fun line => Spec.starts_with "Total (G.M):" line = false) lines ->
  ~ Exists (fun line => Spec.starts_with "Total (G.M):" line = true) lines.
Proof.
  intros HF HE. apply Exists_exists in HE as (line & Hin & Ht).
  rewrite Forall_forall in HF. specialize (HF line Hin). congruence.
Qed.

(** X2: whatever the machine and the platform, a line starting with
    [Total (G.M):] is on standard output exactly when the run ends normally:
    no failure of a timed statement, of the power or of the formatting leaves
    a total behind, and every normal end has printed one. *)
Theorem total_line_iff_normal_end (L : libm) (w : world) :
  Exists (fun line => Spec.starts_with "Total (G.M):" line = true)
         (stdout (snd (run L w)))
  <-> fst (run L w) = Ok tt.
Proof.
  unfold run, main, bind.
  destruct (min_times_from w (List.length (opened initial)) sources) as [ts|e] eqn:E.
  - rewrite (measure_all_ok _ _ _ _ _ E).
    match goal with |- context [report L ?xs ?s] =>
      destruct (report_cases L xs s) as [(g & line & _ & Hl & ->) | (e & ->)] end.
    + cbn [fst snd stdout]. split; [reflexivity|]. intros _.
      apply Exists_app. right. constructor. exact (total_line_prefix _ _ Hl).
    + cbn [fst snd stdout initial app]. split; [|discriminate].
      intros H. exfalso. revert H. apply not_total_not_exists.
      apply seconds_lines_not_total. apply incl_refl.
  - destruct (measure_all_raise _ _ [] _ _ E) as (st' & done & ts & -> & Hincl & Hout).
    cbn [fst snd]. split; [|discriminate].
    intros H. exfalso. revert H. apply not_total_not_exists.
    rewrite Hout. cbn [stdout initial app]. now apply seconds_lines_not_total.
Qed.

(** *** What no run does *)

Lemma measure_raise_opened (w : world) (source : string) (st : state) (e : exn) :
  min_time w (List.length (opened st)) source = Raise e ->
  exists r, (r < 3)%nat /\
    measure w source st =
      (Raise e, {| stdout := stdout st;
                   opened := (opened st ++ List.repeat (json_path source) (S r))%list |}).
Proof.
  unfold min_time, measure, Timeit.repeat, timeit, bind, ret, lift, print.
  cbn [opened stdout fst snd]. rewrite !length_app. cbn [List.length].
  rewrite <- !Nat.add_assoc. cbn [Nat.add]. rewrite !Nat.add_1_r.
  replace (List.length (opened st) + 2)%nat with (S (S (List.length (opened st)))) by lia.
  destruct (trial w _ _) as [s0|]; [|intros [= <-]; exists 0%nat; split; [lia|reflexivity]].
  destruct (trial w (S _) _) as [s1|];
    [|intros [= <-]; exists 1%nat; split; [lia|cbn; now rewrite <- !app_assoc]].
  destruct (trial w (S (S _)) _) as [s2|]; [discriminate|].
  intros [= <-]. exists 2%nat. split; [lia|cbn; now rewrite <- !app_assoc].
Qed.

(** Whatever happens, the loop has opened an initial part of its schedule
    and printed the lines of an initial part of its sources. *)
Lemma measure_all_prefix (w : world) (srcs : list string) :
  forall acc st,
  exists n m ts,
    (n <= 3 * List.length srcs)%nat /\ (m <= List.length srcs)%nat /\
    List.length ts = m /\
    opened (snd (measure_all w srcs acc st))
      = (opened st ++ firstn n (schedule srcs))%list /\
    stdout (snd (measure_all w srcs acc st))
      = (stdout st ++ seconds_lines (firstn m srcs) ts)%list.
Proof.
  induction srcs as [|s rest IH]; intros acc st.
  - exists 0%nat, 0%nat, []. cbn. rewrite !app_nil_r. auto.
  - cbn [measure_all]. unfold bind.
    destruct (min_time w (List.length (opened st)) s) as [t|e] eqn:Et.
    + rewrite (measure_ok _ _ _ _ Et).
      match goal with |- context [measure_all w rest ?a ?s'] =>
        destruct (IH a s') as (n & m & ts & Hn & Hm & Hts & Hop & Hout) end.
      exists (3 + n)%nat, (S m), (t :: ts). rewrite Hop, Hout.
      cbn [stdout opened List.length]. repeat split; try lia.
      * unfold schedule. cbn [flat_map List.repeat app firstn Nat.add].
        now rewrite <- app_assoc.
      * cbn [firstn]. rewrite seconds_lines_cons. now rewrite <- app_assoc.
    + destruct (measure_raise_opened _ _ _ _ Et) as (r & Hr & ->).
      exists (S r), 0%nat, []. cbn [snd stdout opened List.length firstn].
      unfold seconds_lines. cbn [combine map]. rewrite app_nil_r.
      repeat split; try lia.
      unfold schedule. cbn [flat_map].
      destruct r as [|[|[|r]]]; try lia; reflexivity.
Qed.

(** X3: no run strays from its plan.  Whatever the machine does, the files
    opened are an initial part of canada, citm_catalog, citylots, twitter,
    each three times, in that order; the lines printed are the lines of the
    first [m] sources, in order, for some [m] up to four, followed by at most
    one total, which comes only after all four. *)
Theorem run_stays_on_schedule (L : libm) (w : world) :
  exists n m ts,
    (n <= 12)%nat /\ (m <= 4)%nat /\ List.length ts = m /\
    opened (snd (run L w)) = firstn n (schedule sources) /\
    (stdout (snd (run L w)) = seconds_lines (firstn m sources) ts \/
     (m = 4%nat /\ exists g line,
        total_line g = Ok line /\
        stdout (snd (run L w)) = (seconds_lines sources ts ++ [line])%list)).
Proof.
  unfold run, main, bind.
  destruct (min_times_from w (List.length (opened initial)) sources) as [ts|e] eqn:E.
  - rewrite (measure_all_ok _ _ _ _ _ E).
    assert (Hlen : List.length ts = 4%nat).
    { revert E. unfold sources. cbn [min_times_from].
      repeat (destruct (min_time w _ _); [|discriminate]; cbn [obind]).
      now intros [= <-]. }
    exists 12%nat, 4%nat, ts.
    match goal with |- context [report L ?xs ?s] =>
      destruct (report_cases L xs s) as [(g & line & _ & Hl & ->) | (e & ->)] end;
      cbn [snd stdout opened initial app];
      (split; [lia|]); (split; [lia|]); (split; [exact Hlen|]); (split; [reflexivity|]).
    + right. split; [reflexivity|]. exists g, line. split; [exact Hl | reflexivity].
    + left. reflexivity.
  - destruct (measure_all_prefix w sources [] initial)
      as (n & m & ts & Hn & Hm & Hts & Hop & Hout).
    destruct (measure_all_raise _ _ [] _ _ E) as (st' & done & ts' & Hrun & _).
    rewrite Hrun in *. cbn [snd] in *. exists n, m, ts.
    change (List.length sources) with 4%nat in Hn, Hm.
    cbn [initial opened stdout app] in Hop, Hout.
    split; [lia|]. split; [lia|]. split; [exact Hts|]. split; [exact Hop|].
    left. exact Hout.
Qed.

(** *** When the run ends normally *)

Lemma min_time_complete (w : world) (k : nat) (source : string) :
  (forall r, (r < 3)%nat -> exists x, trial w (r + k) (json_path source) = Ok x) ->
  exists t, min_time w k source = Ok t.
Proof.
  intros H. unfold min_time.
  destruct (H 0%nat ltac:(lia)) as (x0 & E0). cbn [Nat.add] in E0.
  destruct (H 1%nat ltac:(lia)) as (x1 & E1).
  destruct (H 2%nat ltac:(lia)) as (x2 & E2).
  rewrite E0, E1, E2. cbn [obind]. eauto.
Qed.

(** The running product of four elapsed times is a non-negative number, or
    a NaN after [inf * 0.0]. *)
Lemma product_of_four (a b c d : F64.float) :
  F64.duration a = true -> F64.duration b = true ->
  F64.duration c = true -> F64.duration d = true ->
  F64.nonneg (F64.mul (F64.mul (F64.mul a b) c) d) \/
  F64.mul (F64.mul (F64.mul a b) c) d = F64.nan.
Proof.
  intros Da Db Dc Dd.
  destruct (mul_nonneg _ _ (duration_nonneg _ Da) Db) as [N1 | (-> & _)];
    [|discriminate].
  destruct (mul_nonneg _ _ N1 Dc) as [N2 | (_ & _ & ->)]; [|right; reflexivity].
  destruct (mul_nonneg _ _ N2 Dd) as [N3 | (_ & _ & ->)]; [left; exact N3 | right; reflexivity].
Qed.

(** On a non-negative number or a NaN the power [0.25] is a float, unless
    the platform's [pow] raises. *)
Lemma float_pow_quarter_total (L : libm) (p : F64.float) :
  pow_quarter_total L ->
  F64.nonneg p \/ p = F64.nan ->
  exists x, float_pow L p F64.quarter = Ok (VFloat x).
Proof.
  intros HL [[ | m e | ] | ->]; try (eexists; reflexivity).
  unfold F64.quarter. rewrite float_pow_finite. fold F64.quarter.
  destruct (F64.eqb (S754_finite false m e) F64.one); [eexists; reflexivity|].
  destruct (HL (S754_finite false m e) eq_refl) as (r & ->). eexists. reflexivity.
Qed.

(** X4: when the clock is sane, each of the twelve timed statements
    completes and the platform's [pow] returns at exponent [0.25], the run
    ends normally with exit status 0 and five lines on standard output: no
    other step of the script can raise. *)
Theorem run_ends_normally (L : libm) (w : world) :
  clock_sane w ->
  pow_quarter_total L ->
  (forall q source r, nth_error sources q = Some source -> (r < 3)%nat ->
     exists x, trial w (r + 3 * q) (json_path source) = Ok x) ->
  exists st,
    run L w = (Ok tt, st) /\
    exit_status (fst (run L w)) = 0 /\
    List.length (stdout st) = 5%nat.
Proof.
  intros Hw HL Hall.
  destruct (min_time_complete w 0 "canada") as (t1 & E1).
  { intros r Hr. exact (Hall 0%nat "canada" r eq_refl Hr). }
  destruct (min_time_complete w 3 "citm_catalog") as (t2 & E2).
  { intros r Hr. exact (Hall 1%nat "citm_catalog" r eq_refl Hr). }
  destruct (min_time_complete w 6 "citylots") as (t3 & E3).
  { intros r Hr. exact (Hall 2%nat "citylots" r eq_refl Hr). }
  destruct (min_time_complete w 9 "twitter") as (t4 & E4).
  { intros r Hr. exact (Hall 3%nat "twitter" r eq_refl Hr). }
  assert (E : min_times_from w (List.length (opened initial)) sources
              = Ok [t1; t2; t3; t4]).
  { unfold sources. cbn [min_times_from initial opened List.length Nat.add].
    now rewrite E1, E2, E3, E4. }
  destruct (float_pow_quarter_total L
              (F64.mul (F64.mul (F64.mul t1 t2) t3) t4) HL) as (x & Hx).
  { apply product_of_four; eauto using min_time_duration. }
  assert (R : run L w =
              (Ok tt,
               {| stdout := (seconds_lines sources [t1; t2; t3; t4]
                               ++ [("Total (G.M): " ++ float_format_f6 x)%string])%list;
                  opened := schedule sources |})).
  { unfold run, main, bind. rewrite (measure_all_ok _ _ _ _ _ E).
    unfold report, bind, lift, print. cbn [initial stdout opened app].
    rewrite geo_mean_four, Hx. reflexivity. }
  eexists. split; [exact R|]. rewrite R. split; reflexivity.
Qed.

Lemma sample_pow_quarter_total : pow_quarter_total Sample.libm.
Proof. intros x _. eexists. reflexivity. Qed.

Lemma run_ends_normally_witness :
  exists st,
    run Sample.libm Sample.world = (Ok tt, st) /\
    exit_status (fst (run Sample.libm Sample.world)) = 0 /\
    List.length (stdout st) = 5%nat.
Proof.
  apply (run_ends_normally Sample.libm Sample.world).
  - exact sample_clock_sane.
  - exact sample_pow_quarter_total.
  - intros q source r _ _. eexists. reflexivity.
Defined.

(** *** The five lines of a run that ends normally *)








(** *** The minimum does not depend on the order of the samples *)

Lemma leb_antisym (a b : F64.float) :
  F64.duration a = true -> F64.duration b = true ->
  F64.leb a b = true -> F64.leb b a = true -> a = b.
Proof.
  unfold F64.leb, SFleb.
  destruct a as [[|]|[|]| |[|] ma ea], b as [[|]|[|]| |[|] mb eb];
    cbn [F64.duration SFcompare]; try discriminate; try reflexivity.
  intros _ _ H1 H2. order_cases.
Qed.

(** X5: the minimum [reduce(min, times)] keeps of a sequence of elapsed
    times does not depend on their order: every permutation of the samples
    gives the same float. *)
Theorem reduce_min_permutation (times times' : list F64.float) :
  Permutation times times' ->
  Forall (fun s => F64.duration s = true) times ->
  reduce Py.min times = reduce Py.min times'.
Proof.
  intros HP HD.
  assert (HD' : Forall (fun s => F64.duration s = true) times').
  { rewrite Forall_forall in *. intros s Hs. apply HD.
    eapply Permutation_in; [apply Permutation_sym; exact HP | exact Hs]. }
  destruct times as [|x xs], times' as [|y ys].
  - reflexivity.
  - apply Permutation_nil in HP. discriminate.
  - apply Permutation_sym, Permutation_nil in HP. discriminate.
  - unfold reduce. f_equal.
    destruct (fold_min xs x) as (Hin & _ & Hle).
    { eapply Forall_impl; [|exact HD]. intros s. apply duration_not_nan. }
    destruct (fold_min ys y) as (Hin' & _ & Hle').
    { eapply Forall_impl; [|exact HD']. intros s. apply duration_not_nan. }
    cbv zeta in *. rewrite Forall_forall in HD, HD'.
    apply leb_antisym; auto.
    + apply Hle. eapply Permutation_in; [apply Permutation_sym; exact HP | exact Hin'].
    + apply Hle'. eapply Permutation_in; [exact HP | exact Hin].
Qed.

Lemma reduce_min_permutation_witness :
  reduce Py.min [Sample.elapsed 2; Sample.elapsed 0; Sample.elapsed 1] =
  reduce Py.min [Sample.elapsed 0; Sample.elapsed 1; Sample.elapsed 2].
Proof.
  apply (reduce_min_permutation
           [Sample.elapsed 2; Sample.elapsed 0; Sample.elapsed 1]
           [Sample.elapsed 0; Sample.elapsed 1; Sample.elapsed 2]).
  - apply (Permutation_cons_append [Sample.elapsed 0; Sample.elapsed 1] (Sample.elapsed 2)).
  - repeat constructor.
Defined.


(** *** Special values of the product *)

Lemma float_pow_negative (L : libm) (m : positive) (e : Z) :
  float_pow L (S754_finite true m e) F64.quarter =
  let? c := cpow L (S754_finite true m e) F64.quarter in Ok (VComplex (fst c) (snd c)).
Proof. reflexivity. Qed.

(** X6: when the product of the four times is a negative finite number,
    the power [0.25] is complex and the report raises without printing.  If
    the complex power raises, the report raises that very exception; if it
    returns, the report raises the [ValueError] by which [0.06f] refuses
    complex numbers.  A complex total is never printed. *)
Theorem negative_product_raises (L : libm) (a b c d : F64.float) (st : state)
    (m : positive) (e : Z) :
  F64.mul (F64.mul (F64.mul a b) c) d = S754_finite true m e ->
  report L [a; b; c; d] st =
    (Raise
       match cpow L (S754_finite true m e) F64.quarter with
       | Ok _ => ValueError "Zero padding is not allowed in complex format specifier"
       | Raise exc => exc
       end,
     st).
Proof.
  intros Hp. unfold report, bind, lift, print.
  rewrite geo_mean_four, Hp, float_pow_negative.
  destruct (cpow L _ _) as [z|exc]; reflexivity.
Qed.

Lemma negative_product_raises_witness :
  cpow Sample.libm (SFopp F64.one) F64.quarter
    = Ok (Sample.cos_quarter_pi, Sample.sin_quarter_pi) /\
  report Sample.libm [SFopp F64.one; F64.one; F64.one; F64.one] initial =
    (Raise (ValueError "Zero padding is not allowed in complex format specifier"),
     initial).
Proof.
  split; [vm_compute; reflexivity|].
  apply (negative_product_raises Sample.libm (SFopp F64.one) F64.one F64.one F64.one
           initial 4503599627370496 (-52)).
  vm_compute. reflexivity.
Defined.

(** X7: overflow and invalid products are silent.  When the product of
    the four times is [+inf] the report prints [Total (G.M): inf]; when it
    is a NaN it prints [Total (G.M): nan]; when it is [+0.0] it prints
    [Total (G.M): 0.000000]; none of them raises, on any platform. *)
Theorem special_products_print (L : libm) (a b c d : F64.float) (st : state) :
  (F64.mul (F64.mul (F64.mul a b) c) d = F64.infinity ->
   report L [a; b; c; d] st =
     (Ok tt, {| stdout := (stdout st ++ ["Total (G.M): inf"])%list;
                opened := opened st |})) /\
  (F64.mul (F64.mul (F64.mul a b) c) d = F64.nan ->
   report L [a; b; c; d] st =
     (Ok tt, {| stdout := (stdout st ++ ["Total (G.M): nan"])%list;
                opened := opened st |})) /\
  (F64.mul (F64.mul (F64.mul a b) c) d = F64.zero ->
   report L [a; b; c; d] st =
     (Ok tt, {| stdout := (stdout st ++ ["Total (G.M): 0.000000"])%list;
                opened := opened st |})).
Proof.
  unfold report, bind, lift, print. rewrite geo_mean_four.
  repeat split; intros ->.
  - now rewrite float_pow_infinity.
  - now rewrite float_pow_nan.
  - now rewrite float_pow_zero.
Qed.


End RunFacts.

(** ** What the printed time says *)

Module PrintFacts.

Import Py PyFacts.
Local Open Scope Z_scope.

Lemma digit_value_digit (d : Z) : Spec.digit_value (digit d) = d mod 10.
Proof.
  unfold digit. pose proof (Z.mod_pos_bound d 10 ltac:(lia)) as H.
  assert (E : d mod 10 = 0 \/ d mod 10 = 1 \/ d mod 10 = 2 \/ d mod 10 = 3 \/
              d mod 10 = 4 \/ d mod 10 = 5 \/ d mod 10 = 6 \/ d mod 10 = 7 \/
              d mod 10 = 8 \/ d mod 10 = 9) by lia.
  repeat (destruct E as [-> | E]; [reflexivity|]). now rewrite E.
Qed.

Lemma digits_value_app (s1 s2 : string) :
  forall acc, Spec.digits_value acc (s1 ++ s2)%string
              = Spec.digits_value (Spec.digits_value acc s1) s2.
Proof. induction s1 as [|c s1 IH]; intros acc; cbn; auto. Qed.

Lemma digits_value_frac6 (acc k : Z) :
  0 <= k < 1000000 ->
  Spec.digits_value acc (frac6 k) = acc * 1000000 + k.
Proof.
  intros Hk. unfold frac6. cbn [Spec.digits_value]. rewrite !digit_value_digit.
  Z.div_mod_to_equations. lia.
Qed.

Lemma digits_value_of_uint_acc (u : Decimal.uint) :
  forall acc : positive,
  Spec.digits_value (Z.pos acc) (NilEmpty.string_of_uint u)
  = Z.pos (Pos.of_uint_acc u acc).
Proof.
  induction u; intros acc; cbn [NilEmpty.string_of_uint Spec.digits_value Pos.of_uint_acc];
    [reflexivity|..];
    match goal with
    | |- Spec.digits_value (10 * Z.pos acc + Spec.digit_value ?c) _ = Z.pos (Pos.of_uint_acc _ ?p) =>
        let v := eval vm_compute in (Spec.digit_value c) in
        change (Spec.digit_value c) with v;
        replace (10 * Z.pos acc + v) with (Z.pos p) by lia
    end; auto.
Qed.

Lemma digits_value_of_uint (u : Decimal.uint) :
  Spec.digits_value 0 (NilEmpty.string_of_uint u) = Z.of_N (Pos.of_uint u).
Proof.
  induction u; cbn [NilEmpty.string_of_uint Spec.digits_value Pos.of_uint];
    [reflexivity|exact IHu|..];
    match goal with
    | |- Spec.digits_value (10 * 0 + Spec.digit_value ?c) _ = Z.of_N (N.pos (Pos.of_uint_acc _ ?p)) =>
        let v := eval vm_compute in (10 * 0 + Spec.digit_value c) in
        change (10 * 0 + Spec.digit_value c) with v
    end; apply digits_value_of_uint_acc.
Qed.

Lemma digits_value_decimal (n : Z) : 0 <= n -> Spec.digits_value 0 (decimal n) = n.
Proof.
  intros Hn. unfold decimal. rewrite digits_value_of_uint.
  change (Pos.of_uint ?u) with (N.of_uint u).
  rewrite DecimalN.Unsigned.of_to. lia.
Qed.

Lemma remove_point_digits (s : string) :
  Spec.all_digits s = true -> Spec.remove_point s = s.
Proof.
  induction s as [|c s IH]; [reflexivity|]. cbn [Spec.all_digits Spec.remove_point].
  intros H. apply andb_prop in H as [Hc Hs].
  destruct (Ascii.eqb_spec c "."%char) as [-> | _]; [discriminate|].
  now rewrite IH.
Qed.

Lemma remove_point_app (s1 s2 : string) :
  Spec.remove_point (s1 ++ s2)%string
  = (Spec.remove_point s1 ++ Spec.remove_point s2)%string.
Proof.
  induction s1 as [|c s1 IH]; [reflexivity|]. cbn [append Spec.remove_point].
  destruct (Ascii.eqb c "."%char); cbn [append]; now rewrite IH.
Qed.

Lemma round_half_even_nonneg (num den : Z) :
  0 <= num -> 0 < den -> 0 <= round_half_even num den.
Proof.
  intros Hn Hd. unfold round_half_even.
  pose proof (Z.div_pos num den Hn Hd).
  destruct (2 * (num mod den) ?= den)%Z; [destruct (Z.even _)| |]; lia.
Qed.

Lemma micros_nonneg (m : positive) (e : Z) : 0 <= micros m e.
Proof.
  unfold micros. destruct (0 <=? e) eqn:E.
  - apply Z.leb_le in E. pose proof (Z.pow_nonneg 2 e ltac:(lia)). nia.
  - apply round_half_even_nonneg; [lia|]. apply Z.pow_pos_nonneg; lia.
Qed.

(** Reading the printed time back gives the rounded count of microseconds. *)
Lemma read_micros_format (m : positive) (e : Z) :
  Spec.read_micros (float_format_f6 (S754_finite false m e)) = micros m e.
Proof.
  pose proof (micros_nonneg m e) as Hn.
  unfold Spec.read_micros. cbn [float_format_f6 sign_prefix append].
  rewrite !remove_point_app. cbn [Spec.remove_point Ascii.eqb Bool.eqb append].
  rewrite (remove_point_digits _ (decimal_digits _)),
          (remove_point_digits _ (frac6_digits _)).
  rewrite digits_value_app, digits_value_decimal, digits_value_frac6.
  - pose proof (Z.div_mod (micros m e) 1000000 ltac:(lia)). lia.
  - apply Z.mod_pos_bound. lia.
  - apply Z.div_pos; lia.
Qed.

(** Rounding to the nearest integer is off by at most a half. *)
Lemma round_half_even_accuracy (num den : Z) :
  0 < den -> 2 * Z.abs (num - round_half_even num den * den) <= den.
Proof.
  intros Hd. unfold round_half_even.
  pose proof (Z.div_mod num den ltac:(lia)) as E.
  pose proof (Z.mod_pos_bound num den Hd) as B.
  destruct (Z.compare_spec (2 * (num mod den)) den); [destruct (Z.even _)| |]; nia.
Qed.

(** X8: the time printed for a finite non-negative minimum, read back as
    a decimal number, is within half a microsecond of the minimum itself:
    with [n] the digits read back as microseconds and [m * 2^e] the float,
    [|m * 2^e * 10^6 - n| <= 1/2] (both sides scaled by the denominator). *)
Theorem printed_time_accuracy (m : positive) (e : Z) :
  2 * Z.abs (Z.pos m * 2 ^ Z.max e 0 * 1000000
             - Spec.read_micros (float_format_f6 (S754_finite false m e))
               * 2 ^ Z.max (- e) 0)
  <= 2 ^ Z.max (- e) 0.
Proof.
  rewrite read_micros_format. unfold micros.
  destruct (0 <=? e) eqn:E.
  - apply Z.leb_le in E. rewrite (Z.max_l e 0), (Z.max_r (- e) 0) by lia.
    change (2 ^ 0) with 1. rewrite Z.mul_1_r, Z.sub_diag. cbn. lia.
  - apply Z.leb_gt in E. rewrite (Z.max_r e 0), (Z.max_l (- e) 0) by lia.
    change (2 ^ 0) with 1. rewrite Z.mul_1_r.
    apply round_half_even_accuracy. apply Z.pow_pos_nonneg; lia.
Qed.


End PrintFacts.
